(** * Construction material calculator (app.py): model and properties

    A shallow embedding of the calculation core of [app.py]:
    the two module-level tables, [calculate_materials], [calculate_cost],
    [get_ai_suggestions] and the body of the [if calculate_btn:] block.

    Numbers.  Python evaluates the arithmetic on binary64 floats (and on
    ints for the rates and the slider value).  The main model is the exact
    one: every number is a rational ([Q]), a literal such as [0.15] is the
    decimal it denotes, and [*], [+], [/] are exact.  Equalities between
    numbers are therefore stated with [==] ([Qeq]).  Where the rounding of
    binary64 changes what happens (a product that underflows to zero, two
    areas that give one quantity), module [Binary64] has the same functions
    on binary64 numbers and the runs are evaluated there.

    Dictionaries.  A Python [dict] keeps insertion order and has unique
    keys; it is modelled as an association list that [Dict.set] updates in
    place or extends at the end.

    Effects.  The functions read the module-level tables and may raise; they
    are written in a small state-and-exception monad [Py] over the store of
    module globals.  Module [Shared] has them once more over a store of
    objects with references and in-place update, to say what a call leaves
    behind. *)

From Stdlib Require Import List String Ascii Bool ZArith QArith Qround Qabs Lia Lqa.
From Stdlib Require Floats.
Import ListNotations.

Open Scope string_scope.
Open Scope Q_scope.

(** ** Python dictionaries *)

Module Dict.

Definition t (V : Type) : Type := list (string * V).

Definition empty {V : Type} : t V := [].

(** [d.get(k)] / [d[k]] / [k in d] *)
Fixpoint get {V : Type} (d : t V) (k : string) : option V :=
  match d with
  | [] => None
  | (k', v) :: rest => if String.eqb k' k then Some v else get rest k
  end.

Definition contains {V : Type} (d : t V) (k : string) : bool :=
  match get d k with Some _ => true | None => false end.

(** [d.get(k, default)] *)
Definition get_default {V : Type} (d : t V) (k : string) (default : V) : V :=
  match get d k with Some v => v | None => default end.

(** [d[k] = v]: an existing key keeps its position, a new key goes last. *)
Fixpoint set {V : Type} (d : t V) (k : string) (v : V) : t V :=
  match d with
  | [] => [(k, v)]
  | (k', v') :: rest =>
      if String.eqb k' k then (k', v) :: rest else (k', v') :: set rest k v
  end.

(** [d.items()], [d.keys()], in insertion order *)
Definition items {V : Type} (d : t V) : list (string * V) := d.
Definition keys {V : Type} (d : t V) : list string := map fst d.

(** [{k: f(v) for k, v in d.items()}] *)
Definition comprehension {V W : Type} (f : string -> V -> W) (d : t V) : t W :=
  fold_left (fun acc kv => set acc (fst kv) (f (fst kv) (snd kv))) (items d) empty.

Definition values {V : Type} (d : t V) : list V := map snd d.

(** [d] without the key [k]. *)
Definition remove {V : Type} (d : t V) (k : string) : t V :=
  filter (fun kv => negb (String.eqb (fst kv) k)) d.

(** A well-formed dictionary has no repeated key. *)
Definition wf {V : Type} (d : t V) : Prop := NoDup (keys d).

(** The entries [(k, w)] with [h k v = Some w], in the order of [d]: what a
    loop over [d.items()] that assigns [acc[k] = w] builds from the empty
    dictionary. *)
Fixpoint map_filter {V W : Type} (h : string -> V -> option W) (d : t V)
  : t W :=
  match d with
  | [] => []
  | (k, v) :: rest =>
      match h k v with
      | Some w => (k, w) :: map_filter h rest
      | None => map_filter h rest
      end
  end.

End Dict.

(** ** Numbers *)

(** Round half to even, to an integer. *)
Definition round_half_even (x : Q) : Z :=
  let f := Qfloor x in
  match Qcompare (x - inject_Z f) (1 # 2) with
  | Lt => f
  | Gt => (f + 1)%Z
  | Eq => if Z.even f then f else (f + 1)%Z
  end.

(** [round(x, ndigits)] for [ndigits >= 0]. *)
Definition round (x : Q) (ndigits : nat) : Q :=
  let scale := inject_Z (10 ^ Z.of_nat ndigits) in
  inject_Z (round_half_even (x * scale)) / scale.

(** ** Exceptions and the store of module globals *)

(** [Exception detail] stands for any exception of class [Exception] other
    than [ZeroDivisionError]; [detail] is what [str(e)] returns. *)
Inductive exn : Type :=
| ZeroDivisionError
| Exception (detail : string).

Definition str (e : exn) : string :=
  match e with
  | ZeroDivisionError => "division by zero"
  | Exception detail => detail
  end.

Inductive outcome (A : Type) : Type :=
| Return (a : A)
| Raise (e : exn).
Arguments Return {A} a.
Arguments Raise {A} e.

(** An entry of [MATERIAL_RATES]: [{"rate": ..., "unit": ...}]. *)
Record RateEntry : Type := mkRate { rate : Q; unit : string }.

(** An entry of the cost breakdown:
    [{"quantity": ..., "rate": ..., "unit": ..., "cost": ...}]. *)
Record CostEntry : Type := mkCost {
  ce_quantity : Q;
  ce_rate : Q;
  ce_unit : string;
  ce_cost : Q
}.

Record Globals : Type := mkGlobals {
  MATERIAL_RATES : Dict.t RateEntry;
  CONSTRUCTION_COEFFICIENTS : Dict.t (Dict.t Q)
}.

(** The tables as the module initialises them. *)
Definition module_globals : Globals := {|
  MATERIAL_RATES := [
    ("cement", mkRate 400 "per bag");
    ("steel", mkRate 65000 "per MT");
    ("bricks", mkRate 7000 "per 1000 nos");
    ("sand", mkRate 1500 "per cum");
    ("aggregate_20mm", mkRate 1200 "per cum");
    ("aggregate_10mm", mkRate 1300 "per cum")
  ];
  CONSTRUCTION_COEFFICIENTS := [
    ("RCC Slab (4 inch)", [
       ("cement", 4.5);
       ("steel", 0.08);
       ("sand", 0.25);
       ("aggregate_20mm", 0.5)
     ]);
    ("Brick Wall (9 inch)", [
       ("cement", 3.0);
       ("bricks", 1350);
       ("sand", 0.35)
     ]);
    ("Plaster (12mm)", [
       ("cement", 1.5);
       ("sand", 0.15)
     ]);
    ("Flooring (IPS)", [
       ("cement", 2.0);
       ("sand", 0.18);
       ("aggregate_10mm", 0.15)
     ])
  ]
|}.

(** ** The monad of Python computations *)

Definition Py (A : Type) : Type := Globals -> outcome A * Globals.

Definition ret {A : Type} (a : A) : Py A := fun g => (Return a, g).

Definition bind {A B : Type} (m : Py A) (k : A -> Py B) : Py B :=
  fun g =>
    match m g with
    | (Return a, g') => k a g'
    | (Raise e, g') => (Raise e, g')
    end.

Definition raise {A : Type} (e : exn) : Py A := fun g => (Raise e, g).

(** Reading a module-level name. *)
Definition global {A : Type} (name : Globals -> A) : Py A :=
  fun g => (Return (name g), g).

(** [try: body  except Exception as e: handler(e)] *)
Definition try_except {A : Type} (body : Py A) (handler : exn -> Py A) : Py A :=
  fun g =>
    match body g with
    | (Return a, g') => (Return a, g')
    | (Raise e, g') => handler e g'
    end.

Declare Scope py_scope.
Delimit Scope py_scope with py.
Notation "x <- m ;; k" := (bind m (fun x => k))
  (at level 100, m at next level, right associativity) : py_scope.
Notation "' p <- m ;; k" := (bind m (fun x => match x with p => k end))
  (at level 100, p pattern, m at next level, right associativity) : py_scope.
Open Scope py_scope.

(** [a / b] with a divisor that may be zero.  The divisor is an exact
    rational here; a binary64 product of two positive factors can be 0.0,
    see [Binary64.truediv]. *)
Definition truediv (a b : Q) : Py Q :=
  if Qeq_bool b 0 then raise ZeroDivisionError else ret (a / b).

(** ** The calculation functions *)

(** [calculate_materials(length, width, construction_type)], in exact
    arithmetic; [Binary64.calculate_materials] is the same function on
    binary64 numbers. *)
Definition calculate_materials (length width : Q) (construction_type : string)
  : Py (Dict.t Q * Q) :=
  let area := length * width in
  let area_in_100sqft := area / 100 in
  let materials := Dict.empty in
  table <- global CONSTRUCTION_COEFFICIENTS ;;
  let coefficients := Dict.get_default table construction_type Dict.empty in
  let materials :=
    fold_left
      (fun materials '(material, quantity_per_100sqft) =>
         Dict.set materials material (quantity_per_100sqft * area_in_100sqft))
      (Dict.items coefficients) materials in
  ret (materials, area).

(** [for x in xs: body], threading the variables the body assigns. *)
Fixpoint for_each {A S : Type} (xs : list A) (body : S -> A -> Py S) (s : S)
  : Py S :=
  match xs with
  | [] => ret s
  | x :: rest => s' <- body s x ;; for_each rest body s'
  end.

(** [calculate_cost(materials)] *)
Definition calculate_cost (materials : Dict.t Q) : Py (Dict.t CostEntry * Q) :=
  let cost_breakdown := Dict.empty in
  let total_cost := 0 in
  for_each (Dict.items materials)
    (fun '(cost_breakdown, total_cost) '(material, quantity) =>
       rates <- global MATERIAL_RATES ;;
       match Dict.get rates material with
       | Some entry =>
           let rate := rate entry in
           let cost := quantity * rate in
           ret (Dict.set cost_breakdown material
                  {| ce_quantity := round quantity 2;
                     ce_rate := rate;
                     ce_unit := unit entry;
                     ce_cost := round cost 2 |},
                total_cost + cost)
       | None => ret (cost_breakdown, total_cost)
       end)
    (cost_breakdown, total_cost).

(** The values the [if calculate_btn:] block binds before it displays them. *)
Record Estimate : Type := mkEstimate {
  area : Q;
  cost_breakdown : Dict.t CostEntry;
  material_cost : Q;
  labor_cost : Q;
  total_cost : Q
}.

(** The estimate together with [total_cost/area], the cost per sqft of the
    summary and of the report. *)
Record EstimateResult : Type := mkResult {
  estimate_of : Estimate;
  cost_per_sqft : Q
}.

(** The first two statements of the block: the materials with the wastage
    factor applied, and the area. *)
Definition adjusted_materials (length width : Q) (construction_type : string)
    (wastage_factor : Z) : Py (Dict.t Q * Q) :=
  '(materials, area) <- calculate_materials length width construction_type ;;
  let materials :=
    Dict.comprehension
      (fun k v => v * (1 + inject_Z wastage_factor / 100)) materials in
  ret (materials, area).

(** The block up to [total_cost = material_cost + labor_cost]. *)
Definition estimate_costs (length width : Q) (construction_type : string)
    (wastage_factor : Z) (include_labor : bool) : Py Estimate :=
  '(materials, area) <-
    adjusted_materials length width construction_type wastage_factor ;;
  '(cost_breakdown, material_cost) <- calculate_cost materials ;;
  let labor_cost := if include_labor then material_cost * 0.3 else 0 in
  let total_cost := material_cost + labor_cost in
  ret {| area := area;
         cost_breakdown := cost_breakdown;
         material_cost := material_cost;
         labor_cost := labor_cost;
         total_cost := total_cost |}.

(** The estimate as the block displays and reports it. *)
Definition estimate (length width : Q) (construction_type : string)
    (wastage_factor : Z) (include_labor : bool) : Py EstimateResult :=
  e <- estimate_costs length width construction_type wastage_factor
         include_labor ;;
  per_sqft <- truediv (total_cost e) (area e) ;;
  ret {| estimate_of := e; cost_per_sqft := per_sqft |}.

Section Advisory.

(** The external collaborators: the text provider,
    [model.generate_content(prompt).text], which returns a text or raises,
    and the two number formats of the prompt, [{area}] and
    [{budget:,.2f}]. *)
Variable generate_content : string -> outcome string.
Variable format_number : Q -> string.
Variable format_money : Q -> string.

Definition call_provider (prompt : string) : Py string :=
  fun g => (generate_content prompt, g).

(** The f-string bound to [prompt]. *)
Definition suggestion_prompt (area : Q) (construction_type : string)
    (budget : Q) : string :=
       "
        For a construction project with following details:
        - Area: " ++ format_number area ++ " sqft
        - Construction Type: " ++ construction_type ++ "
        - Budget: ₹" ++ format_money budget ++ "
        
        Provide brief suggestions for:
        1. Cost optimization tips
        2. Material quality recommendations
        3. Common mistakes to avoid
        
        Keep the response concise and practical.
        ".

(** [get_ai_suggestions(area, construction_type, budget)] *)
Definition get_ai_suggestions (area : Q) (construction_type : string)
    (budget : Q) : Py string :=
  try_except
    (let prompt := suggestion_prompt area construction_type budget in
     text <- call_provider prompt ;;
     ret text)
    (fun e => ret ("AI suggestions unavailable: " ++ str e)).

(** The whole block: the estimate, then the suggestions for it. *)
Definition on_calculate (length width : Q) (construction_type : string)
    (wastage_factor : Z) (include_labor : bool)
  : Py (EstimateResult * string) :=
  r <- estimate length width construction_type wastage_factor
         include_labor ;;
  let e := estimate_of r in
  suggestions <- get_ai_suggestions (area e) construction_type (total_cost e) ;;
  ret (r, suggestions).

End Advisory.

(** ** Pure readings of the loops

    The loop bodies as functions, and what the loops compute; the run
    lemmas below connect them to the monadic definitions. *)

(** One iteration of the loop of [calculate_cost]. *)
Definition cost_step (rates : Dict.t RateEntry)
    (acc : Dict.t CostEntry * Q) (item : string * Q) : Dict.t CostEntry * Q :=
  match Dict.get rates (fst item) with
  | Some entry =>
      (Dict.set (fst acc) (fst item)
         {| ce_quantity := round (snd item) 2;
            ce_rate := rate entry;
            ce_unit := unit entry;
            ce_cost := round (snd item * rate entry) 2 |},
       snd acc + snd item * rate entry)
  | None => acc
  end.

(** The breakdown entry of a material, when it has a rate. *)
Definition priced (rates : Dict.t RateEntry) (material : string) (quantity : Q)
  : option CostEntry :=
  match Dict.get rates material with
  | Some entry =>
      Some {| ce_quantity := round quantity 2;
              ce_rate := rate entry;
              ce_unit := unit entry;
              ce_cost := round (quantity * rate entry) 2 |}
  | None => None
  end.

(** The unrounded line cost [quantity * rate] of a material with a rate. *)
Definition line_cost (rates : Dict.t RateEntry) (material : string)
    (quantity : Q) : option Q :=
  match Dict.get rates material with
  | Some entry => Some (quantity * rate entry)
  | None => None
  end.

(** The unrounded line costs of the priced materials, in order. *)
Definition line_costs (rates : Dict.t RateEntry) (materials : Dict.t Q)
  : list Q :=
  Dict.values (Dict.map_filter (line_cost rates) materials).

(** [0 + c1 + c2 + ...], summed from the left as the loop does. *)
Definition total_of (costs : list Q) : Q := fold_left Qplus costs 0.

(** The costs a breakdown shows. *)
Definition shown_costs (breakdown : Dict.t CostEntry) : list Q :=
  map ce_cost (Dict.values breakdown).

(** The quantities of a profile for an area, and with the wastage factor. *)
Definition quantities (coefficients : Dict.t Q) (area : Q) : Dict.t Q :=
  Dict.map_filter (fun _ c => Some (c * (area / 100))) coefficients.

Definition with_wastage (materials : Dict.t Q) (wastage_factor : Z) : Dict.t Q :=
  Dict.map_filter
    (fun _ v => Some (v * (1 + inject_Z wastage_factor / 100))) materials.

(** What the block computes, statement by statement, from a store [g]. *)
Definition materials_view (g : Globals) (length width : Q)
    (construction_type : string) : Dict.t Q :=
  fold_left
    (fun materials kv =>
       Dict.set materials (fst kv) (snd kv * (length * width / 100)))
    (Dict.get_default (CONSTRUCTION_COEFFICIENTS g) construction_type Dict.empty)
    Dict.empty.

Definition adjusted_view (g : Globals) (length width : Q)
    (construction_type : string) (wastage_factor : Z) : Dict.t Q :=
  Dict.comprehension
    (fun _ v => v * (1 + inject_Z wastage_factor / 100))
    (materials_view g length width construction_type).

Definition cost_view (g : Globals) (length width : Q)
    (construction_type : string) (wastage_factor : Z) : Dict.t CostEntry * Q :=
  fold_left (cost_step (MATERIAL_RATES g))
    (adjusted_view g length width construction_type wastage_factor)
    (Dict.empty, 0).

Definition estimate_view (g : Globals) (length width : Q)
    (construction_type : string) (wastage_factor : Z) (include_labor : bool)
  : Estimate :=
  let c := cost_view g length width construction_type wastage_factor in
  {| area := length * width;
     cost_breakdown := fst c;
     material_cost := snd c;
     labor_cost := if include_labor then snd c * 0.3 else 0;
     total_cost := snd c + (if include_labor then snd c * 0.3 else 0) |}.

(** The request conditions of the specification: dimensions positive,
    wastage percent within 0..20, construction type a key of the table. *)
Definition valid_request (g : Globals) (length width : Q)
    (construction_type : string) (wastage_factor : Z) : Prop :=
  0 < length /\ 0 < width /\ (0 <= wastage_factor <= 20)%Z /\
  Dict.contains (CONSTRUCTION_COEFFICIENTS g) construction_type = true.


(** Every material of every profile has a rate. *)
Definition profiles_priced (g : Globals) : Prop :=
  forall construction_type coefficients material,
    Dict.get (CONSTRUCTION_COEFFICIENTS g) construction_type = Some coefficients ->
    In material (Dict.keys coefficients) ->
    Dict.contains (MATERIAL_RATES g) material = true.

(** ** The material table and the chart of the block *)

(** ASCII letters and their case.  Python's [str] methods work on Unicode
    code points; these definitions are theirs on ASCII text, which is what
    the material names are. *)
Definition is_upper (c : ascii) : bool :=
  (65 <=? nat_of_ascii c)%nat && (nat_of_ascii c <=? 90)%nat.

Definition is_lower (c : ascii) : bool :=
  (97 <=? nat_of_ascii c)%nat && (nat_of_ascii c <=? 122)%nat.

Definition is_cased (c : ascii) : bool := is_upper c || is_lower c.

Definition to_upper (c : ascii) : ascii :=
  if is_lower c then ascii_of_nat (nat_of_ascii c - 32) else c.

Definition to_lower (c : ascii) : ascii :=
  if is_upper c then ascii_of_nat (nat_of_ascii c + 32) else c.

(** [s.title()]: a character that follows a cased character is lowered,
    any other is put in title case. *)
Fixpoint title_from (previous_is_cased : bool) (s : string) : string :=
  match s with
  | EmptyString => EmptyString
  | String c rest =>
      String (if previous_is_cased then to_lower c else to_upper c)
             (title_from (is_cased c) rest)
  end.

Definition title (s : string) : string := title_from false s.

(** [s.replace(old, new)] for one-character [old] and [new]. *)
Fixpoint replace (s : string) (old new : ascii) : string :=
  match s with
  | EmptyString => EmptyString
  | String c rest =>
      String (if Ascii.eqb c old then new else c) (replace rest old new)
  end.

(** [material.replace("_", " ").title()] *)
Definition display_name (material : string) : string :=
  title (replace material "_"%char " "%char).

(** The names the tables use: lower-case letters, digits and underscores. *)
Definition is_digit (c : ascii) : bool :=
  (48 <=? nat_of_ascii c)%nat && (nat_of_ascii c <=? 57)%nat.

Fixpoint identifier_like (s : string) : bool :=
  match s with
  | EmptyString => true
  | String c rest =>
      (is_lower c || is_digit c || Ascii.eqb c "_"%char) && identifier_like rest
  end.

(** Lower-casing a label and turning its spaces into underscores. *)
Fixpoint label_back (label : string) : string :=
  match label with
  | EmptyString => EmptyString
  | String t rest =>
      String (if Ascii.eqb (to_lower t) " "%char then "_"%char else to_lower t)
             (label_back rest)
  end.

(** A row of [material_data]. *)
Record MaterialRow : Type := mkRow {
  Material : string;
  Quantity : string;
  Unit : string;
  Rate : string;
  Cost : string
}.

(** The two columns of [chart_data]. *)
Record ChartData : Type := mkChart {
  chart_Material : list string;
  chart_Cost : list Q
}.

Section Presentation.

(** The number formats of the table: [f"{x:.2f}"], [f"₹{x:,}"] and
    [f"₹{x:,.2f}"]. *)
Variable format_2f : Q -> string.
Variable format_rate : Q -> string.
Variable format_money : Q -> string.

(** The loop that fills [material_data]. *)
Definition material_data (cost_breakdown : Dict.t CostEntry)
  : list MaterialRow :=
  fold_left
    (fun material_data '(material, details) =>
       (material_data ++
        [ {| Material := display_name material;
             Quantity := format_2f (ce_quantity details);
             Unit := ce_unit details;
             Rate := format_rate (ce_rate details);
             Cost := format_money (ce_cost details) |} ])%list)
    (Dict.items cost_breakdown) [].

(** [cost_breakdown[m]], which raises [KeyError] for a missing key. *)
Definition getitem {V : Type} (d : Dict.t V) (k : string) : Py V :=
  match Dict.get d k with
  | Some v => ret v
  | None => raise (Exception ("'" ++ k ++ "'"))
  end.

(** [pd.DataFrame({'Material': [...], 'Cost': [...]})]; the constructor
    refuses columns of different lengths. *)
Definition chart_data (cost_breakdown : Dict.t CostEntry)
    (material_data : list MaterialRow) : Py ChartData :=
  let materials := map Material material_data in
  costs <-
    for_each (Dict.keys cost_breakdown)
      (fun costs m =>
         details <- getitem cost_breakdown m ;;
         ret (costs ++ [ce_cost details])%list)
      [] ;;
  if Nat.eqb (List.length materials) (List.length costs)
  then ret {| chart_Material := materials; chart_Cost := costs |}
  else raise (Exception "All arrays must be of the same length").

End Presentation.

(** ** Quantities that agree as numbers *)

(** Two dictionaries with the same keys in the same order and equal
    numbers under each key. *)
Definition dict_eqv (d1 d2 : Dict.t Q) : Prop :=
  Forall2 (fun kv1 kv2 => fst kv1 = fst kv2 /\ snd kv1 == snd kv2) d1 d2.

(** What the materials of 100 sqft of a construction type cost, without
    wastage: the sum of [coefficient * rate] over the priced materials of the
    profile. *)
Definition profile_cost (g : Globals) (construction_type : string) : Q :=
  total_of
    (line_costs (MATERIAL_RATES g)
       (Dict.get_default (CONSTRUCTION_COEFFICIENTS g) construction_type
          Dict.empty)).

(** ** The calculation on binary64 numbers

    The same functions with Python's [float] arithmetic: every number is a
    binary64 value, [*], [+] and [/] round to nearest, ties to even, an
    [int] operand is converted first, and [round] goes through the exact
    value of its argument.  The tables are module constants here. *)

Module Binary64.

Import Floats.
#[local] Set Warnings "-inexact-float".
#[local] Open Scope float_scope.

Record RateEntry : Type := mkRate { rate : float; unit : string }.

Record CostEntry : Type := mkCost {
  ce_quantity : float;
  ce_rate : float;
  ce_unit : string;
  ce_cost : float
}.

Definition MATERIAL_RATES : Dict.t RateEntry := [
  ("cement", mkRate 400 "per bag");
  ("steel", mkRate 65000 "per MT");
  ("bricks", mkRate 7000 "per 1000 nos");
  ("sand", mkRate 1500 "per cum");
  ("aggregate_20mm", mkRate 1200 "per cum");
  ("aggregate_10mm", mkRate 1300 "per cum")
].

Definition CONSTRUCTION_COEFFICIENTS : Dict.t (Dict.t float) := [
  ("RCC Slab (4 inch)", [
     ("cement", 4.5);
     ("steel", 0.08);
     ("sand", 0.25);
     ("aggregate_20mm", 0.5)
   ]);
  ("Brick Wall (9 inch)", [
     ("cement", 3.0);
     ("bricks", 1350);
     ("sand", 0.35)
   ]);
  ("Plaster (12mm)", [
     ("cement", 1.5);
     ("sand", 0.15)
   ]);
  ("Flooring (IPS)", [
     ("cement", 2.0);
     ("sand", 0.18);
     ("aggregate_10mm", 0.15)
   ])
].

(** The exact value [m * 2^e] of the magnitude of a finite float. *)
Definition magnitude (m : positive) (e : Z) : Q :=
  match e with
  | Zneg p => Z.pos m # (2 ^ p)
  | _ => inject_Z (Z.pos m * 2 ^ e)
  end.

(** [round(x, ndigits)] for a float and [ndigits >= 0]: the exact value is
    rounded half to even to [ndigits] decimals, and the result is the float
    nearest to that decimal; zeros, infinities and nan round to themselves. *)
Definition round (x : float) (ndigits : nat) : float :=
  match Prim2SF x with
  | S754_finite s m e =>
      let scale := (10 ^ Z.of_nat ndigits)%Z in
      match round_half_even (magnitude m e * inject_Z scale)%Q with
      | Zpos n =>
          SF2Prim (SFdiv prec emax (S754_finite s n 0)
                     (S754_finite false (Z.to_pos scale) 0))
      | _ => SF2Prim (S754_zero s)
      end
  | _ => x
  end.

(** An [int] as an exact, unnormalised binary number. *)
Definition of_int (z : Z) : spec_float :=
  match z with
  | Z0 => S754_zero false
  | Zpos p => S754_finite false p 0
  | Zneg p => S754_finite true p 0
  end.

(** [a / b] for two [int]s: the float nearest to the quotient. *)
Definition int_truediv (a b : Z) : outcome float :=
  if Z.eqb b 0 then Raise ZeroDivisionError
  else
    match SFdiv prec emax (of_int a) (of_int b) with
    | S754_infinity _ =>
        Raise (Exception "integer division result too large for a float")
    | q => Return (SF2Prim q)
    end.

(** [a / b] for floats. *)
Definition truediv (a b : float) : outcome float :=
  if b =? 0 then Raise ZeroDivisionError else Return (a / b).

(** [calculate_materials(length, width, construction_type)] *)
Definition calculate_materials (length width : float)
    (construction_type : string) : Dict.t float * float :=
  let area := length * width in
  let area_in_100sqft := area / 100 in
  let materials := Dict.empty in
  let coefficients :=
    Dict.get_default CONSTRUCTION_COEFFICIENTS construction_type Dict.empty in
  let materials :=
    fold_left
      (fun materials '(material, quantity_per_100sqft) =>
         Dict.set materials material (quantity_per_100sqft * area_in_100sqft))
      (Dict.items coefficients) materials in
  (materials, area).

(** [calculate_cost(materials)] *)
Definition calculate_cost (materials : Dict.t float)
  : Dict.t CostEntry * float :=
  let cost_breakdown := Dict.empty in
  let total_cost := 0 in
  fold_left
    (fun '(cost_breakdown, total_cost) '(material, quantity) =>
       match Dict.get MATERIAL_RATES material with
       | Some entry =>
           let rate := rate entry in
           let cost := quantity * rate in
           (Dict.set cost_breakdown material
              {| ce_quantity := round quantity 2;
                 ce_rate := rate;
                 ce_unit := unit entry;
                 ce_cost := round cost 2 |},
            total_cost + cost)
       | None => (cost_breakdown, total_cost)
       end)
    (Dict.items materials) (cost_breakdown, total_cost).

Record Estimate : Type := mkEstimate {
  area : float;
  cost_breakdown : Dict.t CostEntry;
  material_cost : float;
  labor_cost : float;
  total_cost : float
}.

Record EstimateResult : Type := mkResult {
  estimate_of : Estimate;
  cost_per_sqft : float
}.

(** The materials with the wastage factor applied, and the area. *)
Definition adjusted_materials (length width : float)
    (construction_type : string) (wastage_factor : Z)
  : outcome (Dict.t float * float) :=
  let '(materials, area) :=
    calculate_materials length width construction_type in
  match int_truediv wastage_factor 100 with
  | Return fraction =>
      Return (Dict.comprehension (fun k v => v * (1 + fraction)) materials,
              area)
  | Raise e => Raise e
  end.

(** The block up to [total_cost = material_cost + labor_cost]. *)
Definition estimate_costs (length width : float) (construction_type : string)
    (wastage_factor : Z) (include_labor : bool) : outcome Estimate :=
  match adjusted_materials length width construction_type wastage_factor with
  | Return (materials, area) =>
      let '(cost_breakdown, material_cost) := calculate_cost materials in
      let labor_cost := if include_labor then material_cost * 0.3 else 0 in
      let total_cost := material_cost + labor_cost in
      Return {| area := area;
                cost_breakdown := cost_breakdown;
                material_cost := material_cost;
                labor_cost := labor_cost;
                total_cost := total_cost |}
  | Raise e => Raise e
  end.

(** The estimate with [total_cost/area]. *)
Definition estimate (length width : float) (construction_type : string)
    (wastage_factor : Z) (include_labor : bool) : outcome EstimateResult :=
  match estimate_costs length width construction_type wastage_factor
          include_labor with
  | Return e =>
      match truediv (total_cost e) (area e) with
      | Return per_sqft =>
          Return {| estimate_of := e; cost_per_sqft := per_sqft |}
      | Raise err => Raise err
      end
  | Raise err => Raise err
  end.

(** The inputs of the runs below. *)
Definition tiny : float := 1e-200.
Definition area_a : float := 100.00000000000001.
Definition area_b : float := 100.00000000000003.

End Binary64.

(** ** The calculation over shared objects

    Python's dictionaries are objects, and a name or a dictionary entry
    holds a reference.  Here the store is a list of objects addressed by
    position, with allocation, reading and in-place update; the functions
    are written over it as the source has them: [materials = {}] allocates,
    [materials[material] = ...] updates the object in place, and
    [CONSTRUCTION_COEFFICIENTS.get(construction_type, {})] returns a
    reference to the profile held by the table, not a copy.  The entries of
    the rate table and of the breakdown, which the code only ever reads or
    builds fresh, are held by value. *)

Module Shared.

Definition addr : Type := nat.

Inductive object : Type :=
| Numbers (d : Dict.t Q)
| Profiles (d : Dict.t addr)
| Rates (d : Dict.t RateEntry)
| Breakdown (d : Dict.t CostEntry).

(** The objects, and what the two module-level names refer to. *)
Record Store : Type := mkStore {
  objects : list object;
  name_MATERIAL_RATES : addr;
  name_CONSTRUCTION_COEFFICIENTS : addr
}.

Definition Run (A : Type) : Type := Store -> outcome A * Store.

Definition ret {A : Type} (a : A) : Run A := fun s => (Return a, s).

Definition bind {A B : Type} (m : Run A) (k : A -> Run B) : Run B :=
  fun s =>
    match m s with
    | (Return a, s') => k a s'
    | (Raise e, s') => (Raise e, s')
    end.

Definition raise {A : Type} (e : exn) : Run A := fun s => (Raise e, s).

Declare Scope run_scope.
Delimit Scope run_scope with run.
Notation "x <- m ;; k" := (bind m (fun x => k))
  (at level 100, m at next level, right associativity) : run_scope.
#[local] Open Scope run_scope.

(** The store with new objects after the old ones. *)
Definition extend (s : Store) (new : list object) : Store :=
  {| objects := (objects s ++ new)%list;
     name_MATERIAL_RATES := name_MATERIAL_RATES s;
     name_CONSTRUCTION_COEFFICIENTS := name_CONSTRUCTION_COEFFICIENTS s |}.

(** A new object; its reference is the next free position. *)
Definition alloc (o : object) : Run addr :=
  fun s => (Return (List.length (objects s)), extend s [o]).

(** The object behind a reference. *)
Definition load (a : addr) : Run object :=
  fun s =>
    match nth_error (objects s) a with
    | Some o => (Return o, s)
    | None => (Raise (Exception "dangling reference"), s)
    end.

Fixpoint put (l : list object) (a : addr) (o : object) : list object :=
  match l, a with
  | [], _ => []
  | _ :: rest, O => o :: rest
  | x :: rest, S a' => x :: put rest a' o
  end.

(** In-place update of the object behind a reference. *)
Definition update (a : addr) (o : object) : Run Datatypes.unit :=
  fun s =>
    (Return tt,
     {| objects := put (objects s) a o;
        name_MATERIAL_RATES := name_MATERIAL_RATES s;
        name_CONSTRUCTION_COEFFICIENTS := name_CONSTRUCTION_COEFFICIENTS s |}).

(** Reading a module-level name. *)
Definition global (name : Store -> addr) : Run addr :=
  fun s => (Return (name s), s).

Definition load_numbers (a : addr) : Run (Dict.t Q) :=
  o <- load a ;;
  match o with Numbers d => ret d | _ => raise (Exception "TypeError") end.

Definition load_profiles (a : addr) : Run (Dict.t addr) :=
  o <- load a ;;
  match o with Profiles d => ret d | _ => raise (Exception "TypeError") end.

Definition load_rates (a : addr) : Run (Dict.t RateEntry) :=
  o <- load a ;;
  match o with Rates d => ret d | _ => raise (Exception "TypeError") end.

Definition load_breakdown (a : addr) : Run (Dict.t CostEntry) :=
  o <- load a ;;
  match o with Breakdown d => ret d | _ => raise (Exception "TypeError") end.

Fixpoint for_each {A S : Type} (xs : list A) (body : S -> A -> Run S) (s : S)
  : Run S :=
  match xs with
  | [] => ret s
  | x :: rest => s' <- body s x ;; for_each rest body s'
  end.

Definition truediv (a b : Q) : Run Q :=
  if Qeq_bool b 0 then raise ZeroDivisionError else ret (a / b).

(** [calculate_materials(length, width, construction_type)]; the result
    holds a reference to the [materials] object. *)
Definition calculate_materials (length width : Q) (construction_type : string)
  : Run (addr * Q) :=
  let area := length * width in
  let area_in_100sqft := area / 100 in
  materials <- alloc (Numbers Dict.empty) ;;
  table_ref <- global name_CONSTRUCTION_COEFFICIENTS ;;
  default <- alloc (Numbers Dict.empty) ;;
  table <- load_profiles table_ref ;;
  let coefficients := Dict.get_default table construction_type default in
  items <- load_numbers coefficients ;;
  _ <- for_each (Dict.items items)
         (fun _ kv =>
            d <- load_numbers materials ;;
            update materials
              (Numbers (Dict.set d (fst kv) (snd kv * area_in_100sqft))))
         tt ;;
  ret (materials, area).

(** [calculate_cost(materials)] for a reference to a materials object; the
    result holds a reference to the [cost_breakdown] object. *)
Definition calculate_cost (materials : addr) : Run (addr * Q) :=
  cost_breakdown <- alloc (Breakdown Dict.empty) ;;
  let total_cost := 0 in
  items <- load_numbers materials ;;
  total_cost <-
    for_each (Dict.items items)
      (fun total_cost kv =>
         rates_ref <- global name_MATERIAL_RATES ;;
         rates <- load_rates rates_ref ;;
         match Dict.get rates (fst kv) with
         | Some entry =>
             let rate := rate entry in
             let cost := snd kv * rate in
             d <- load_breakdown cost_breakdown ;;
             _ <- update cost_breakdown
                    (Breakdown
                       (Dict.set d (fst kv)
                          {| ce_quantity := round (snd kv) 2;
                             ce_rate := rate;
                             ce_unit := unit entry;
                             ce_cost := round cost 2 |})) ;;
             ret (total_cost + cost)
         | None => ret total_cost
         end)
      total_cost ;;
  ret (cost_breakdown, total_cost).

(** The values the block binds; [cost_breakdown] is a reference. *)
Record EstimateRef : Type := mkEstimateRef {
  area : Q;
  cost_breakdown : addr;
  material_cost : Q;
  labor_cost : Q;
  total_cost : Q
}.

(** The block up to [total_cost = material_cost + labor_cost]; the
    comprehension builds a new object and rebinds [materials] to it. *)
Definition estimate_costs (length width : Q) (construction_type : string)
    (wastage_factor : Z) (include_labor : bool) : Run EstimateRef :=
  r <- calculate_materials length width construction_type ;;
  let materials := fst r in
  let area := snd r in
  items <- load_numbers materials ;;
  materials <-
    alloc (Numbers
             (Dict.comprehension
                (fun k v => v * (1 + inject_Z wastage_factor / 100)) items)) ;;
  c <- calculate_cost materials ;;
  let cost_breakdown := fst c in
  let material_cost := snd c in
  let labor_cost := if include_labor then material_cost * 0.3 else 0 in
  let total_cost := material_cost + labor_cost in
  ret {| area := area;
         cost_breakdown := cost_breakdown;
         material_cost := material_cost;
         labor_cost := labor_cost;
         total_cost := total_cost |}.

(** The estimate with [total_cost/area]. *)
Definition estimate (length width : Q) (construction_type : string)
    (wastage_factor : Z) (include_labor : bool) : Run (EstimateRef * Q) :=
  e <- estimate_costs length width construction_type wastage_factor
         include_labor ;;
  per_sqft <- truediv (total_cost e) (area e) ;;
  ret (e, per_sqft).

(** The store holds the tables [g]: the names refer to the rate table and
    to a table of references to the profiles, each profile an object of its
    own. *)
Definition holds (s : Store) (g : Globals) : Prop :=
  nth_error (objects s) (name_MATERIAL_RATES s)
    = Some (Rates (MATERIAL_RATES g)) /\
  exists refs,
    nth_error (objects s) (name_CONSTRUCTION_COEFFICIENTS s)
      = Some (Profiles refs) /\
    Forall2
      (fun (kr : string * addr) (kd : string * Dict.t Q) =>
         fst kr = fst kd /\
         nth_error (objects s) (snd kr) = Some (Numbers (snd kd)))
      refs (CONSTRUCTION_COEFFICIENTS g).

(** What a run shows: the outcome with the breakdown read off the final
    store. *)
Definition observed (run : outcome (EstimateRef * Q) * Store)
  : outcome EstimateResult :=
  match fst run with
  | Return (e, per_sqft) =>
      match nth_error (objects (snd run)) (cost_breakdown e) with
      | Some (Breakdown d) =>
          Return
            (mkResult
               (mkEstimate (area e) d (material_cost e) (labor_cost e)
                  (total_cost e))
               per_sqft)
      | _ => Raise (Exception "dangling reference")
      end
  | Raise e => Raise e
  end.

(** The store right after the module is loaded. *)
Definition module_store : Store := {|
  objects := [
    Rates (MATERIAL_RATES module_globals);
    Numbers [("cement", 4.5); ("steel", 0.08); ("sand", 0.25);
             ("aggregate_20mm", 0.5)];
    Numbers [("cement", 3.0); ("bricks", 1350); ("sand", 0.35)];
    Numbers [("cement", 1.5); ("sand", 0.15)];
    Numbers [("cement", 2.0); ("sand", 0.18); ("aggregate_10mm", 0.15)];
    Profiles [("RCC Slab (4 inch)", 1%nat); ("Brick Wall (9 inch)", 2%nat);
              ("Plaster (12mm)", 3%nat); ("Flooring (IPS)", 4%nat)]
  ];
  name_MATERIAL_RATES := 0%nat;
  name_CONSTRUCTION_COEFFICIENTS := 5%nat
|}.

End Shared.

(** The objects a run of the block adds to the store. *)
Definition block_objects (g : Globals) (length width : Q)
    (construction_type : string) (wastage_factor : Z) : list Shared.object :=
  [Shared.Numbers (materials_view g length width construction_type);
   Shared.Numbers Dict.empty;
   Shared.Numbers (adjusted_view g length width construction_type wastage_factor);
   Shared.Breakdown
     (fst (cost_view g length width construction_type wastage_factor))].

(** Proof steps over the four profiles of the module's table. *)
Ltac each_profile :=
  unfold Dict.values; cbn [map snd module_globals CONSTRUCTION_COEFFICIENTS];
  repeat apply Forall_cons; try apply Forall_nil.

Ltac distinct_keys :=
  unfold Dict.wf, Dict.keys; cbn [map fst];
  repeat (apply NoDup_cons; [cbn [In]; intuition discriminate|]);
  apply NoDup_nil.

(** * Properties *)

(** ** Dictionaries *)

Section DictLookup.

Context {V : Type}.

Lemma get_None_not_key (d : Dict.t V) (k : string) :
  Dict.get d k = None <-> ~ In k (Dict.keys d).
Proof.
  induction d as [|[k' v] d IH]; simpl.
  - tauto.
  - destruct (String.eqb_spec k' k) as [->|Hne].
    + split; [discriminate | intros H; exfalso; apply H; now left].
    + rewrite IH. split; [intros H [E|E]; auto | tauto].
Qed.

Lemma get_In (d : Dict.t V) (k : string) (v : V) :
  Dict.get d k = Some v -> In (k, v) d.
Proof.
  induction d as [|[k' v'] d IH]; simpl; [discriminate|].
  destruct (String.eqb_spec k' k) as [->|Hne].
  - intros [= ->]. now left.
  - intros H. right. auto.
Qed.

Lemma In_key_get (d : Dict.t V) (k : string) :
  In k (Dict.keys d) -> exists v, Dict.get d k = Some v.
Proof.
  intros Hin. destruct (Dict.get d k) as [v|] eqn:E; [now exists v|].
  apply get_None_not_key in E. contradiction.
Qed.

Lemma set_fresh (d : Dict.t V) (k : string) (v : V) :
  Dict.get d k = None -> Dict.set d k v = (d ++ [(k, v)])%list.
Proof.
  induction d as [|[k' v'] d IH]; simpl; [reflexivity|].
  destruct (String.eqb k' k); [discriminate|].
  intros H. now rewrite IH.
Qed.

Lemma get_app_fresh (d : Dict.t V) (k k' : string) (v : V) :
  k <> k' -> Dict.get d k' = None -> Dict.get (d ++ [(k, v)])%list k' = None.
Proof.
  intros Hne. induction d as [|[k0 v0] d IH]; simpl.
  - now destruct (String.eqb_spec k k').
  - destruct (String.eqb k0 k'); [discriminate | exact IH].
Qed.

End DictLookup.

Section DictLoops.

Context {V W : Type}.

Lemma keys_map_filter_subset (h : string -> V -> option W) (d : Dict.t V)
    (k : string) :
  In k (Dict.keys (Dict.map_filter h d)) -> In k (Dict.keys d).
Proof.
  induction d as [|[k' v] d IH]; simpl; [tauto|].
  destruct (h k' v); simpl; tauto.
Qed.

Lemma wf_map_filter (h : string -> V -> option W) (d : Dict.t V) :
  Dict.wf d -> Dict.wf (Dict.map_filter h d).
Proof.
  unfold Dict.wf. induction d as [|[k v] d IH]; simpl; intros Hd.
  - constructor.
  - inversion Hd as [|? ? Hk Hd']; subst.
    destruct (h k v); simpl; auto.
    constructor; auto.
    intros Hin. apply Hk. eapply keys_map_filter_subset; eauto.
Qed.

(** A loop that assigns [acc[k] = w] for the items of a well-formed
    dictionary appends the entries in order. *)
Lemma fold_set_map_filter (h : string -> V -> option W) (d : Dict.t V) :
  forall acc : Dict.t W,
    Dict.wf d ->
    (forall k, In k (Dict.keys d) -> Dict.get acc k = None) ->
    fold_left
      (fun acc kv =>
         match h (fst kv) (snd kv) with
         | Some w => Dict.set acc (fst kv) w
         | None => acc
         end) d acc
    = (acc ++ Dict.map_filter h d)%list.
Proof.
  unfold Dict.wf.
  induction d as [|[k v] d IH]; simpl; intros acc Hd Hfresh.
  - now rewrite app_nil_r.
  - inversion Hd as [|? ? Hk Hd']; subst.
    destruct (h k v) as [w|].
    + rewrite set_fresh by auto.
      rewrite IH; auto.
      * now rewrite <- app_assoc.
      * intros k' Hin. apply get_app_fresh; auto.
        intros ->. contradiction.
    + apply IH; auto.
Qed.

Lemma get_map_filter (h : string -> V -> option W) (d : Dict.t V)
    (k : string) (w : W) :
  Dict.get (Dict.map_filter h d) k = Some w ->
  exists v, In (k, v) d /\ h k v = Some w.
Proof.
  induction d as [|[k' v] d IH]; simpl; [discriminate|].
  destruct (h k' v) as [w'|] eqn:E; simpl.
  - destruct (String.eqb_spec k' k) as [->|Hne].
    + intros [= ->]. exists v. auto.
    + intros H. destruct (IH H) as (v0 & Hin & Hh). eauto.
  - intros H. destruct (IH H) as (v0 & Hin & Hh). eauto.
Qed.

(** With a total [h], the lookup commutes with the loop. *)
Lemma get_map_filter_total (f : V -> W) (d : Dict.t V) (k : string) :
  Dict.get (Dict.map_filter (fun _ v => Some (f v)) d) k
  = option_map f (Dict.get d k).
Proof.
  induction d as [|[k' v] d IH]; simpl; [reflexivity|].
  destruct (String.eqb k' k); auto.
Qed.

Lemma keys_map_filter_total (f : string -> V -> W) (d : Dict.t V) :
  Dict.keys (Dict.map_filter (fun k v => Some (f k v)) d) = Dict.keys d.
Proof.
  induction d as [|[k' v] d IH]; simpl; [reflexivity|].
  now rewrite IH.
Qed.

Lemma map_filter_remove (h : string -> V -> option W) (d : Dict.t V)
    (k : string) :
  (forall v, h k v = None) ->
  Dict.map_filter h (Dict.remove d k) = Dict.map_filter h d.
Proof.
  intros Hk. induction d as [|[k' v] d IH]; simpl; [reflexivity|].
  destruct (String.eqb_spec k' k) as [->|Hne]; simpl.
  - now rewrite Hk.
  - now rewrite IH.
Qed.

End DictLoops.

Lemma fold_left_ext {A B : Type} (f g : A -> B -> A) (l : list B) :
  (forall a b, f a b = g a b) ->
  forall a, fold_left f l a = fold_left g l a.
Proof.
  intros Hfg. induction l as [|b l IH]; simpl; intros a; [reflexivity|].
  now rewrite Hfg, IH.
Qed.

(** ** Running the functions *)

(** A loop whose body neither raises nor writes a global is a fold. *)
Lemma for_each_run {A S : Type} (body : S -> A -> Py S)
    (f : Globals -> S -> A -> S) :
  (forall s x g, body s x g = (Return (f g s x), g)) ->
  forall xs s g, for_each xs body s g = (Return (fold_left (f g) xs s), g).
Proof.
  intros Hbody. induction xs as [|x xs IH]; simpl; intros s g.
  - reflexivity.
  - unfold bind. now rewrite Hbody, IH.
Qed.

Lemma calculate_materials_run (length width : Q) (construction_type : string)
    (g : Globals) :
  calculate_materials length width construction_type g =
  (Return
     (fold_left
        (fun materials kv =>
           Dict.set materials (fst kv) (snd kv * (length * width / 100)))
        (Dict.get_default (CONSTRUCTION_COEFFICIENTS g) construction_type
           Dict.empty)
        Dict.empty,
      length * width), g).
Proof.
  unfold calculate_materials, bind, global, ret, Dict.items.
  do 2 f_equal. f_equal.
  apply fold_left_ext. now intros a [k c].
Qed.

Lemma calculate_cost_run (materials : Dict.t Q) (g : Globals) :
  calculate_cost materials g =
  (Return (fold_left (cost_step (MATERIAL_RATES g)) materials (Dict.empty, 0)), g).
Proof.
  unfold calculate_cost, Dict.items.
  apply (for_each_run _ (fun g => cost_step (MATERIAL_RATES g))).
  intros [bd total] [material quantity] g'.
  unfold bind, global, cost_step, ret; simpl.
  now destruct (Dict.get (MATERIAL_RATES g') material).
Qed.

(** The two components of the loop state of [calculate_cost]. *)
Lemma cost_fold_split (rates : Dict.t RateEntry) (materials : Dict.t Q) :
  forall bd total,
    fold_left (cost_step rates) materials (bd, total) =
    (fold_left
       (fun acc kv =>
          match priced rates (fst kv) (snd kv) with
          | Some w => Dict.set acc (fst kv) w
          | None => acc
          end) materials bd,
     fold_left Qplus (line_costs rates materials) total).
Proof.
  unfold line_costs, Dict.values.
  induction materials as [|[k q] materials IH]; simpl; intros bd total.
  - reflexivity.
  - unfold cost_step at 2, priced at 2, line_cost at 1. simpl.
    destruct (Dict.get rates k) as [entry|]; simpl; apply IH.
Qed.

Lemma adjusted_materials_run (length width : Q) (construction_type : string)
    (wastage_factor : Z) (g : Globals) :
  adjusted_materials length width construction_type wastage_factor g =
  (Return (adjusted_view g length width construction_type wastage_factor,
           length * width), g).
Proof.
  unfold adjusted_materials, bind. now rewrite calculate_materials_run.
Qed.

Lemma estimate_costs_run (length width : Q) (construction_type : string)
    (wastage_factor : Z) (include_labor : bool) (g : Globals) :
  estimate_costs length width construction_type wastage_factor include_labor g =
  (Return (estimate_view g length width construction_type wastage_factor
             include_labor), g).
Proof.
  unfold estimate_costs, bind.
  rewrite adjusted_materials_run, calculate_cost_run.
  unfold estimate_view, cost_view.
  now destruct (fold_left _ _ _).
Qed.

Lemma estimate_run (length width : Q) (construction_type : string)
    (wastage_factor : Z) (include_labor : bool) (g : Globals) :
  estimate length width construction_type wastage_factor include_labor g =
  (let e := estimate_view g length width construction_type wastage_factor
              include_labor in
   if Qeq_bool (length * width) 0 then Raise ZeroDivisionError
   else Return {| estimate_of := e;
                  cost_per_sqft := total_cost e / (length * width) |},
   g).
Proof.
  unfold estimate, bind. rewrite estimate_costs_run.
  unfold truediv. cbn [area estimate_view].
  now destruct (Qeq_bool (length * width) 0).
Qed.

(** ** The worked scenario *)

(** C1.  For length 17, width 70, "Plaster (12mm)", wastage 5 and labor
    included, the block computes area 1190; cement: adjusted quantity
    18.7425 and line cost 7497.00; sand: adjusted quantity 1.87425 and line
    cost 2811.375; material cost 10308.375, labor cost 3092.5125, total cost
    13400.8875, and a cost per sqft of 11.26125, which is 11.26 to two
    decimals.  (The adjusted quantities are those of the materials
    dictionary and the line costs are [quantity * rate]; the breakdown shows
    them to two decimals: 18.74 and 7497.00, 1.87 and 2811.38.) *)
Theorem plaster_scenario :
  exists materials a r cement sand cement_entry sand_entry,
    fst (adjusted_materials 17 70 "Plaster (12mm)" 5 module_globals)
      = Return (materials, a) /\
    fst (estimate 17 70 "Plaster (12mm)" 5 true module_globals) = Return r /\
    a == 1190 /\
    area (estimate_of r) == 1190 /\
    Dict.keys materials = ["cement"; "sand"] /\
    Dict.get materials "cement" = Some cement /\
    Dict.get materials "sand" = Some sand /\
    Dict.keys (cost_breakdown (estimate_of r)) = ["cement"; "sand"] /\
    Dict.get (cost_breakdown (estimate_of r)) "cement" = Some cement_entry /\
    Dict.get (cost_breakdown (estimate_of r)) "sand" = Some sand_entry /\
    cement == 18.7425 /\
    cement * ce_rate cement_entry == 7497.00 /\
    sand == 1.87425 /\
    sand * ce_rate sand_entry == 2811.375 /\
    material_cost (estimate_of r) == 10308.375 /\
    labor_cost (estimate_of r) == 3092.5125 /\
    total_cost (estimate_of r) == 13400.8875 /\
    cost_per_sqft r == total_cost (estimate_of r) / area (estimate_of r) /\
    cost_per_sqft r == 11.26125 /\
    round (cost_per_sqft r) 2 == 11.26 /\
    ce_quantity cement_entry == 18.74 /\ ce_cost cement_entry == 7497.00 /\
    ce_quantity sand_entry == 1.87 /\ ce_cost sand_entry == 2811.38.
Proof.
  do 7 eexists.
  repeat match goal with |- _ /\ _ => split end;
    try (vm_compute; reflexivity).
Qed.

(** ** Errors and missing validation *)



(** C8.  For a construction type that is not a key of the coefficient
    table, [calculate_materials] returns the empty dictionary and the area
    [length * width], and [calculate_cost] of the empty dictionary returns
    the empty breakdown and a total of 0; neither raises. *)
Theorem unknown_type_gives_empty_estimate (g : Globals) (length width : Q)
    (construction_type : string) :
  Dict.contains (CONSTRUCTION_COEFFICIENTS g) construction_type = false ->
  calculate_materials length width construction_type g
    = (Return (Dict.empty, length * width), g) /\
  calculate_cost Dict.empty g = (Return (Dict.empty, 0), g).
Proof.
  intros Hkey. split; [|reflexivity].
  rewrite calculate_materials_run.
  unfold Dict.contains in Hkey. unfold Dict.get_default.
  destruct (Dict.get (CONSTRUCTION_COEFFICIENTS g) construction_type);
    [discriminate | reflexivity].
Qed.

Lemma unknown_type_gives_empty_estimate_witness :
  Dict.contains (CONSTRUCTION_COEFFICIENTS module_globals) "Unknown" = false /\
  calculate_materials 12 10 "Unknown" module_globals
    = (Return (Dict.empty, 12 * 10), module_globals) /\
  calculate_cost Dict.empty module_globals
    = (Return (Dict.empty, 0), module_globals).
Proof.
  split; [reflexivity|].
  apply (unknown_type_gives_empty_estimate module_globals 12 10 "Unknown").
  reflexivity.
Defined.

(** ** Labor and total *)

(** C4.  For every request the block returns an estimate whose labor cost
    is 0 when labor is not included and 0.30 times the material cost when it
    is, and whose total cost is the material cost plus the labor cost. *)
Theorem labor_cost_rule (g : Globals) (length width : Q)
    (construction_type : string) (wastage_factor : Z) (include_labor : bool) :
  exists e,
    estimate_costs length width construction_type wastage_factor
      include_labor g = (Return e, g) /\
    (if include_labor
     then labor_cost e == 0.30 * material_cost e
     else labor_cost e = 0) /\
    total_cost e == material_cost e + labor_cost e.
Proof.
  rewrite estimate_costs_run. eexists. split; [reflexivity|].
  cbn [labor_cost total_cost material_cost estimate_view].
  split; [|reflexivity].
  destruct include_labor; [|reflexivity].
  ring.
Qed.

(** ** The division *)

(** C10, amended.  With a length and a width of at least 1, the least the
    input widgets accept, the area [length * width] is at least 1, and the
    estimate returns with [total_cost / area] as its cost per sqft: the
    division does not raise. *)
Theorem widget_dimensions_division_defined (g : Globals) (length width : Q)
    (construction_type : string) (wastage_factor : Z) (include_labor : bool) :
  1 <= length -> 1 <= width ->
  exists r,
    estimate length width construction_type wastage_factor include_labor g
      = (Return r, g) /\
    area (estimate_of r) = length * width /\
    1 <= area (estimate_of r) /\
    cost_per_sqft r = total_cost (estimate_of r) / area (estimate_of r).
Proof.
  intros Hl Hw.
  assert (Harea : 1 <= length * width) by nra.
  rewrite estimate_run. cbv zeta.
  destruct (Qeq_bool (length * width) 0) eqn:E.
  - apply Qeq_bool_eq in E. rewrite E in Harea. destruct (Harea eq_refl).
  - eexists. split; [reflexivity|]. cbn. auto.
Qed.

Lemma widget_dimensions_division_defined_witness :
  exists r,
    estimate 1 70 "Plaster (12mm)" 5 true module_globals
      = (Return r, module_globals) /\
    area (estimate_of r) = 1 * 70 /\
    1 <= area (estimate_of r) /\
    cost_per_sqft r = total_cost (estimate_of r) / area (estimate_of r).
Proof.
  apply (widget_dimensions_division_defined
           module_globals 1 70 "Plaster (12mm)" 5 true);
    apply Qle_bool_imp_le; reflexivity.
Defined.

(** ** The advisory call *)

(** C7.  Whatever the provider does, [get_ai_suggestions] returns: the
    provider's text, or, when the provider raises, the fallback text
    ["AI suggestions unavailable: "] followed by the error detail.  The
    block calls it after the estimate, and the estimate it hands on is the
    one it computed, whatever the provider did. *)
Theorem get_ai_suggestions_never_raises
    (generate_content : string -> outcome string)
    (format_number format_money : Q -> string)
    (g : Globals) (length width : Q) (construction_type : string)
    (wastage_factor : Z) (include_labor : bool) (a budget : Q) :
  (exists text,
     get_ai_suggestions generate_content format_number format_money
       a construction_type budget g = (Return text, g) /\
     match generate_content
             (suggestion_prompt format_number format_money
                a construction_type budget) with
     | Return answer => text = answer
     | Raise e => text = "AI suggestions unavailable: " ++ str e /\ text <> ""
     end) /\
  match
    fst (estimate length width construction_type wastage_factor
           include_labor g),
    fst (on_calculate generate_content format_number format_money
           length width construction_type wastage_factor include_labor g)
  with
  | Return r, Return (r', _) => r' = r
  | Raise e, Raise e' => e' = e
  | _, _ => False
  end.
Proof.
  assert (Hsug : forall a' c' b' g',
    exists text,
      get_ai_suggestions generate_content format_number format_money
        a' c' b' g' = (Return text, g') /\
      match generate_content
              (suggestion_prompt format_number format_money a' c' b') with
      | Return answer => text = answer
      | Raise e => text = "AI suggestions unavailable: " ++ str e /\ text <> ""
      end).
  { intros a' c' b' g'.
    unfold get_ai_suggestions, try_except, bind, call_provider, ret.
    destruct (generate_content _) as [answer|e].
    - exists answer. auto.
    - eexists. split; [reflexivity|]. split; [reflexivity|]. discriminate. }
  split; [apply Hsug|].
  unfold on_calculate, bind.
  destruct (estimate length width construction_type wastage_factor
              include_labor g) as [[r|e] g'] eqn:E; cbn [fst]; [|reflexivity].
  destruct (Hsug (area (estimate_of r)) construction_type
              (total_cost (estimate_of r)) g') as (text & -> & _).
  reflexivity.
Qed.

(** ** Unpriced materials *)

Lemma get_set_other {V : Type} (d : Dict.t V) (k k' : string) (v : V) :
  k <> k' -> Dict.get (Dict.set d k v) k' = Dict.get d k'.
Proof.
  intros Hne. induction d as [|[k0 v0] d IH]; simpl.
  - now destruct (String.eqb_spec k k').
  - destruct (String.eqb_spec k0 k) as [->|Hk]; simpl.
    + now destruct (String.eqb_spec k k').
    + now rewrite IH.
Qed.

Lemma cost_fold_remove (rates : Dict.t RateEntry) (material : string)
    (materials : Dict.t Q) :
  Dict.get rates material = None ->
  forall acc,
    fold_left (cost_step rates) (Dict.remove materials material) acc =
    fold_left (cost_step rates) materials acc.
Proof.
  intros Hnone. unfold Dict.remove.
  induction materials as [|[k q] materials IH]; simpl; intros acc.
  - reflexivity.
  - destruct (String.eqb_spec k material) as [->|Hne]; simpl.
    + rewrite IH. f_equal. unfold cost_step. simpl. now rewrite Hnone.
    + apply IH.
Qed.

Lemma cost_fold_not_key (rates : Dict.t RateEntry) (material : string)
    (materials : Dict.t Q) :
  Dict.get rates material = None ->
  forall acc,
    Dict.get (fst acc) material = None ->
    Dict.get (fst (fold_left (cost_step rates) materials acc)) material = None.
Proof.
  intros Hnone.
  induction materials as [|[k q] materials IH]; simpl; intros acc Hacc.
  - assumption.
  - apply IH. unfold cost_step. simpl.
    destruct (Dict.get rates k) as [entry|] eqn:Hk; [|assumption].
    simpl. rewrite get_set_other; [assumption|].
    intros ->. congruence.
Qed.

(** The profiles of the module's table: lookups land on one of them. *)
Lemma get_default_Forall {V : Type} (P : V -> Prop) (d : Dict.t V)
    (k : string) (default : V) :
  P default -> Forall P (Dict.values d) -> P (Dict.get_default d k default).
Proof.
  intros Hdef Hall. unfold Dict.get_default.
  destruct (Dict.get d k) as [v|] eqn:E; [|assumption].
  apply get_In in E.
  rewrite Forall_forall in Hall. apply Hall.
  unfold Dict.values. now apply (in_map snd) in E.
Qed.

Lemma profiles_wf (construction_type : string) :
  Dict.wf (Dict.get_default (CONSTRUCTION_COEFFICIENTS module_globals)
             construction_type Dict.empty).
Proof.
  apply get_default_Forall; [apply NoDup_nil|].
  each_profile; distinct_keys.
Qed.

Lemma module_profiles_priced : profiles_priced module_globals.
Proof.
  intros construction_type coefficients material Hget Hin.
  apply get_In in Hget.
  cbn [module_globals CONSTRUCTION_COEFFICIENTS In] in Hget.
  repeat (destruct Hget as [Hget|Hget];
          [injection Hget as <- <-; cbn [Dict.keys map fst In] in Hin;
           repeat (destruct Hin as [<-|Hin]; [reflexivity|]);
           contradiction|]).
  contradiction.
Qed.

Lemma keys_map_filter_all {V W : Type} (h : string -> V -> option W)
    (d : Dict.t V) :
  (forall k v, In (k, v) d -> h k v <> None) ->
  Dict.keys (Dict.map_filter h d) = Dict.keys d.
Proof.
  induction d as [|[k v] d IH]; simpl; intros Hall; [reflexivity|].
  destruct (h k v) as [w|] eqn:E.
  - simpl. f_equal. apply IH. intros k' v' Hin. apply Hall. now right.
  - exfalso. apply (Hall k v); auto.
Qed.

Lemma comprehension_map_filter {V W : Type} (f : string -> V -> W)
    (d : Dict.t V) :
  Dict.wf d ->
  Dict.comprehension f d = Dict.map_filter (fun k v => Some (f k v)) d.
Proof.
  intros Hwf. unfold Dict.comprehension, Dict.items.
  apply (fold_set_map_filter (fun k v => Some (f k v)) d []); auto.
Qed.

Lemma materials_view_quantities (g : Globals) (length width : Q)
    (construction_type : string) :
  let coefficients :=
    Dict.get_default (CONSTRUCTION_COEFFICIENTS g) construction_type
      Dict.empty in
  Dict.wf coefficients ->
  materials_view g length width construction_type
  = quantities coefficients (length * width).
Proof.
  intros coefficients Hwf. unfold materials_view, quantities.
  apply (fold_set_map_filter
           (fun _ c => Some (c * (length * width / 100))) coefficients []);
    auto.
Qed.

Lemma adjusted_view_quantities (g : Globals) (length width : Q)
    (construction_type : string) (wastage_factor : Z) :
  let coefficients :=
    Dict.get_default (CONSTRUCTION_COEFFICIENTS g) construction_type
      Dict.empty in
  Dict.wf coefficients ->
  adjusted_view g length width construction_type wastage_factor
  = with_wastage (quantities coefficients (length * width)) wastage_factor.
Proof.
  intros coefficients Hwf. unfold adjusted_view.
  rewrite materials_view_quantities by assumption. fold coefficients.
  unfold with_wastage.
  apply comprehension_map_filter.
  unfold quantities. now apply wf_map_filter.
Qed.

(** Over a well-formed dictionary the loop of [calculate_cost] builds the
    breakdown entry by entry and sums the unrounded line costs. *)
Lemma cost_fold_wf (rates : Dict.t RateEntry) (materials : Dict.t Q) :
  Dict.wf materials ->
  fold_left (cost_step rates) materials (Dict.empty, 0) =
  (Dict.map_filter (priced rates) materials,
   total_of (line_costs rates materials)).
Proof.
  intros Hwf. rewrite cost_fold_split. unfold total_of. f_equal.
  apply (fold_set_map_filter (priced rates) materials []); auto.
Qed.

(** C5.  A material without an entry in the rate table is left out of the
    breakdown [calculate_cost] returns and adds nothing to the total: the
    result is the one for the dictionary without that material, and nothing
    is raised.  With the module's tables every material of every profile
    has a rate, and the breakdown of an estimate has exactly the materials
    of the profile. *)
Theorem unpriced_material_is_dropped (g : Globals) (materials : Dict.t Q)
    (material : string) :
  Dict.contains (MATERIAL_RATES g) material = false ->
  (exists breakdown total,
     calculate_cost materials g = (Return (breakdown, total), g) /\
     Dict.contains breakdown material = false /\
     calculate_cost (Dict.remove materials material) g
       = (Return (breakdown, total), g)) /\
  profiles_priced module_globals /\
  (forall length width construction_type wastage_factor include_labor,
     exists e,
       estimate_costs length width construction_type wastage_factor
         include_labor module_globals = (Return e, module_globals) /\
       Dict.keys (cost_breakdown e)
       = Dict.keys (Dict.get_default (CONSTRUCTION_COEFFICIENTS module_globals)
                      construction_type Dict.empty)).
Proof.
  intros Hrate.
  assert (Hnone : Dict.get (MATERIAL_RATES g) material = None).
  { unfold Dict.contains in Hrate.
    destruct (Dict.get (MATERIAL_RATES g) material); [discriminate|reflexivity]. }
  split; [|split; [apply module_profiles_priced|]].
  - rewrite !calculate_cost_run.
    rewrite cost_fold_remove by assumption.
    destruct (fold_left (cost_step (MATERIAL_RATES g)) materials (Dict.empty, 0))
      as [breakdown total] eqn:E.
    exists breakdown, total. repeat split.
    unfold Dict.contains.
    replace breakdown with
      (fst (fold_left (cost_step (MATERIAL_RATES g)) materials (Dict.empty, 0)))
      by now rewrite E.
    now rewrite cost_fold_not_key.
  - intros length width construction_type wastage_factor include_labor.
    rewrite estimate_costs_run. eexists. split; [reflexivity|].
    cbn [cost_breakdown estimate_view]. unfold cost_view.
    pose proof (profiles_wf construction_type) as Hwf.
    rewrite adjusted_view_quantities by assumption.
    set (coefficients :=
           Dict.get_default (CONSTRUCTION_COEFFICIENTS module_globals)
             construction_type Dict.empty) in *.
    rewrite cost_fold_wf
      by (unfold with_wastage, quantities; now do 2 apply wf_map_filter).
    cbn [fst].
    rewrite keys_map_filter_all.
    + unfold with_wastage, quantities. now rewrite !keys_map_filter_total.
    + intros k v Hin. unfold priced.
      assert (Hk : In k (Dict.keys coefficients)).
      { apply (in_map fst) in Hin. cbn [fst] in Hin.
        unfold with_wastage, quantities in Hin.
        fold (Dict.keys (Dict.map_filter
          (fun (_ : string) (v : Q) => Some (v * (1 + inject_Z wastage_factor / 100)))
          (Dict.map_filter
            (fun (_ : string) (c : Q) => Some (c * (length * width / 100)))
            coefficients))) in Hin.
        now rewrite !keys_map_filter_total in Hin. }
      assert (Hpriced :
        Dict.contains (MATERIAL_RATES module_globals) k = true).
      { unfold coefficients, Dict.get_default in Hk.
        destruct (Dict.get (CONSTRUCTION_COEFFICIENTS module_globals)
                    construction_type) as [c|] eqn:Hc; [|contradiction].
        eapply module_profiles_priced; eauto. }
      unfold Dict.contains in Hpriced.
      destruct (Dict.get (MATERIAL_RATES module_globals) k);
        [discriminate | discriminate].
Qed.

Lemma unpriced_material_is_dropped_witness :
  Dict.contains (MATERIAL_RATES module_globals) "gravel" = false /\
  exists breakdown total,
    calculate_cost [("cement", 2); ("gravel", 3); ("sand", 1)] module_globals
      = (Return (breakdown, total), module_globals) /\
    Dict.contains breakdown "gravel" = false /\
    calculate_cost [("cement", 2); ("sand", 1)] module_globals
      = (Return (breakdown, total), module_globals).
Proof.
  split; [reflexivity|].
  exact (proj1 (unpriced_material_is_dropped module_globals
                  [("cement", 2); ("gravel", 3); ("sand", 1)] "gravel"
                  eq_refl)).
Defined.

(** ** Rounding in the breakdown *)

Lemma round_half_even_near (y : Q) :
  y - (1 # 2) <= inject_Z (round_half_even y) /\
  inject_Z (round_half_even y) <= y + (1 # 2).
Proof.
  unfold round_half_even.
  pose proof (Qfloor_le y) as Hlo.
  pose proof (Qlt_floor y) as Hhi.
  rewrite inject_Z_plus in Hhi.
  change (inject_Z 1) with 1 in Hhi.
  destruct (Qcompare_spec (y - inject_Z (Qfloor y)) (1 # 2)) as [E|E|E].
  - destruct (Z.even (Qfloor y));
      [|rewrite inject_Z_plus; change (inject_Z 1) with 1]; split; lra.
  - split; lra.
  - rewrite inject_Z_plus. change (inject_Z 1) with 1. split; lra.
Qed.

Lemma div100 (n : Q) : n / 100 == n * (1 # 100).
Proof. field. Qed.

(** Rounding to two decimals moves a number by at most half a hundredth. *)
Lemma round2_near (x : Q) :
  x - (1 # 200) <= round x 2 /\ round x 2 <= x + (1 # 200).
Proof.
  unfold round.
  change (inject_Z (10 ^ Z.of_nat 2)) with 100.
  destruct (round_half_even_near (x * 100)) as [Hlo Hhi].
  rewrite div100. split; lra.
Qed.

Lemma rounded_sum_near (costs : list Q) :
  forall a b,
    let n := inject_Z (Z.of_nat (List.length costs)) in
    (b - a) - n * (1 # 200)
      <= fold_left Qplus (map (fun c => round c 2) costs) b
         - fold_left Qplus costs a /\
    fold_left Qplus (map (fun c => round c 2) costs) b
      - fold_left Qplus costs a
      <= (b - a) + n * (1 # 200).
Proof.
  induction costs as [|c costs IH]; intros a b; cbn [List.length map fold_left].
  - cbv zeta. change (inject_Z (Z.of_nat 0)) with 0. split; lra.
  - cbv zeta in *.
    rewrite Nat2Z.inj_succ, <- Z.add_1_r, inject_Z_plus.
    change (inject_Z 1) with 1.
    destruct (IH (a + c) (b + round c 2)) as [Hlo Hhi].
    destruct (round2_near c) as [Hc1 Hc2].
    split; lra.
Qed.

Lemma shown_costs_rounded (rates : Dict.t RateEntry) (materials : Dict.t Q) :
  shown_costs (Dict.map_filter (priced rates) materials)
  = map (fun c => round c 2) (line_costs rates materials).
Proof.
  unfold shown_costs, line_costs, Dict.values.
  induction materials as [|[k q] materials IH]; simpl; [reflexivity|].
  unfold priced at 1, line_cost at 1.
  destruct (Dict.get rates k) as [entry|]; simpl; now rewrite IH.
Qed.

(** C3, as stated, fails.  For the valid request 1 x 1 ft of
    "Plaster (12mm)" with 5% wastage, the sand line costs
    0.001575 * 1500 = 2.3625, and the breakdown [calculate_cost] returns
    already holds it rounded, 2.36 (and the quantity as 0.00): the material
    cost is 8.6625 and the costs of the breakdown add up to 8.66. *)
Lemma breakdown_holds_rounded_costs :
  valid_request module_globals 1 1 "Plaster (12mm)" 5 /\
  exists materials e sand sand_entry,
    fst (adjusted_materials 1 1 "Plaster (12mm)" 5 module_globals)
      = Return (materials, 1 * 1) /\
    fst (estimate_costs 1 1 "Plaster (12mm)" 5 true module_globals)
      = Return e /\
    Dict.get materials "sand" = Some sand /\
    Dict.get (cost_breakdown e) "sand" = Some sand_entry /\
    sand == 0.001575 /\
    sand * ce_rate sand_entry == 2.3625 /\
    ce_cost sand_entry == 2.36 /\
    ce_quantity sand_entry == 0 /\
    material_cost e == 8.6625 /\
    total_of (shown_costs (cost_breakdown e)) == 8.66 /\
    material_cost e - total_of (shown_costs (cost_breakdown e)) == 0.0025.
Proof.
  split.
  - repeat split; try reflexivity; lia.
  - do 4 eexists.
    repeat match goal with |- _ /\ _ => split end;
      try (vm_compute; reflexivity).
Qed.

(** C3, amended.  For every well-formed materials dictionary,
    [calculate_cost] returns as total the sum of the unrounded line costs
    [quantity * rate] of the priced materials, while the breakdown it
    returns holds each quantity and each cost rounded to two decimals; the
    costs of the breakdown therefore add up to the total only to within
    0.005 per line. *)
Theorem total_is_unrounded_sum (g : Globals) (materials : Dict.t Q) :
  Dict.wf materials ->
  exists breakdown total,
    calculate_cost materials g = (Return (breakdown, total), g) /\
    breakdown = Dict.map_filter (priced (MATERIAL_RATES g)) materials /\
    total = total_of (line_costs (MATERIAL_RATES g) materials) /\
    shown_costs breakdown
      = map (fun c => round c 2) (line_costs (MATERIAL_RATES g) materials) /\
    Qabs (total - total_of (shown_costs breakdown))
      <= inject_Z (Z.of_nat (List.length breakdown)) * (1 # 200).
Proof.
  intros Hwf. rewrite calculate_cost_run, cost_fold_wf by assumption.
  do 2 eexists. split; [reflexivity|]. split; [reflexivity|].
  split; [reflexivity|]. split; [apply shown_costs_rounded|].
  rewrite shown_costs_rounded. unfold total_of.
  assert (Hlen : List.length (Dict.map_filter (priced (MATERIAL_RATES g)) materials)
                 = List.length (line_costs (MATERIAL_RATES g) materials)).
  { rewrite <- (length_map (fun c => round c 2)), <- shown_costs_rounded.
    unfold shown_costs, Dict.values. now rewrite !length_map. }
  rewrite Hlen.
  destruct (rounded_sum_near (line_costs (MATERIAL_RATES g) materials) 0 0)
    as [Hlo Hhi].
  cbv zeta in Hlo, Hhi.
  apply Qabs_Qle_condition. split; lra.
Qed.

Lemma total_is_unrounded_sum_witness :
  Dict.wf [("cement", 0.01575); ("sand", 0.001575)] /\
  exists breakdown total,
    calculate_cost [("cement", 0.01575); ("sand", 0.001575)] module_globals
      = (Return (breakdown, total), module_globals) /\
    breakdown = Dict.map_filter (priced (MATERIAL_RATES module_globals))
                  [("cement", 0.01575); ("sand", 0.001575)] /\
    total = total_of (line_costs (MATERIAL_RATES module_globals)
                        [("cement", 0.01575); ("sand", 0.001575)]) /\
    shown_costs breakdown
      = map (fun c => round c 2)
          (line_costs (MATERIAL_RATES module_globals)
             [("cement", 0.01575); ("sand", 0.001575)]) /\
    Qabs (total - total_of (shown_costs breakdown))
      <= inject_Z (Z.of_nat (List.length breakdown)) * (1 # 200).
Proof.
  assert (Hwf : Dict.wf [("cement", 0.01575); ("sand", 0.001575)])
    by distinct_keys.
  split; [exact Hwf|].
  exact (total_is_unrounded_sum module_globals
           [("cement", 0.01575); ("sand", 0.001575)] Hwf).
Defined.

(** ** Monotonicity of the quantities *)

Lemma module_coefficients_positive (construction_type material : string)
    (c : Q) :
  Dict.get (Dict.get_default (CONSTRUCTION_COEFFICIENTS module_globals)
              construction_type Dict.empty) material = Some c ->
  0 < c.
Proof.
  intros Hget. apply get_In in Hget.
  assert (Hall :
    Forall (fun kv => 0 < snd kv)
      (Dict.get_default (CONSTRUCTION_COEFFICIENTS module_globals)
         construction_type Dict.empty)).
  { apply (get_default_Forall
             (fun coefficients : Dict.t Q =>
                Forall (fun kv => 0 < snd kv) coefficients)).
    - apply Forall_nil.
    - each_profile; repeat apply Forall_cons; try apply Forall_nil;
        reflexivity. }
  rewrite Forall_forall in Hall. exact (Hall _ Hget).
Qed.

(** The adjusted quantity of a material is its coefficient times the area
    in hundreds of sqft times the wastage factor. *)
Lemma adjusted_quantity (construction_type material : string)
    (length width : Q) (wastage_factor : Z) :
  Dict.get (adjusted_view module_globals length width construction_type
              wastage_factor) material
  = option_map
      (fun c => c * (length * width / 100)
                * (1 + inject_Z wastage_factor / 100))
      (Dict.get (Dict.get_default (CONSTRUCTION_COEFFICIENTS module_globals)
                   construction_type Dict.empty) material).
Proof.
  rewrite adjusted_view_quantities by apply profiles_wf.
  unfold with_wastage, quantities.
  rewrite !get_map_filter_total.
  now destruct (Dict.get _ material).
Qed.

(** * Further properties of the calculation *)

(** ** Lookups in what the loops build *)

Lemma get_map_filter_wf {V W : Type} (h : string -> V -> option W)
    (d : Dict.t V) (k : string) :
  Dict.wf d ->
  Dict.get (Dict.map_filter h d) k
  = match Dict.get d k with
    | Some v => h k v
    | None => None
    end.
Proof.
  unfold Dict.wf. induction d as [|[k' v] d IH]; simpl; intros Hwf.
  - reflexivity.
  - inversion Hwf as [|? ? Hk Hd]; subst.
    destruct (String.eqb_spec k' k) as [->|Hne].
    + destruct (h k v) as [w|] eqn:E; simpl.
      * now rewrite String.eqb_refl.
      * apply get_None_not_key. intros Hin. apply Hk.
        eapply keys_map_filter_subset; eauto.
    + destruct (h k' v) as [w|]; simpl.
      * destruct (String.eqb_spec k' k); [contradiction|]. now apply IH.
      * now apply IH.
Qed.

(** X1.  For a profile without repeated keys, [calculate_materials] returns
    the materials of the profile, in the profile's order, each with its
    coefficient times the area in hundreds of sqft; a name that is not in
    the profile is not in the result. *)
Theorem calculate_materials_lookup (g : Globals) (length width : Q)
    (construction_type : string) :
  Dict.wf (Dict.get_default (CONSTRUCTION_COEFFICIENTS g) construction_type
             Dict.empty) ->
  exists materials,
    calculate_materials length width construction_type g
      = (Return (materials, length * width), g) /\
    Dict.keys materials
      = Dict.keys (Dict.get_default (CONSTRUCTION_COEFFICIENTS g)
                     construction_type Dict.empty) /\
    forall material,
      Dict.get materials material
      = option_map (fun c => c * (length * width / 100))
          (Dict.get (Dict.get_default (CONSTRUCTION_COEFFICIENTS g)
                       construction_type Dict.empty) material).
Proof.
  intros Hwf. rewrite calculate_materials_run.
  eexists. split; [reflexivity|].
  fold (materials_view g length width construction_type).
  rewrite materials_view_quantities by assumption.
  unfold quantities. split.
  - apply keys_map_filter_total.
  - intros material. apply get_map_filter_total.
Qed.

Lemma calculate_materials_lookup_witness :
  exists materials,
    calculate_materials 17 70 "Flooring (IPS)" module_globals
      = (Return (materials, 17 * 70), module_globals) /\
    Dict.keys materials
      = Dict.keys (Dict.get_default (CONSTRUCTION_COEFFICIENTS module_globals)
                     "Flooring (IPS)" Dict.empty) /\
    forall material,
      Dict.get materials material
      = option_map (fun c => c * (17 * 70 / 100))
          (Dict.get (Dict.get_default (CONSTRUCTION_COEFFICIENTS module_globals)
                       "Flooring (IPS)" Dict.empty) material).
Proof.
  apply (calculate_materials_lookup module_globals 17 70 "Flooring (IPS)").
  distinct_keys.
Defined.

(** X2.  The wastage step keeps the materials and their order and
    multiplies each quantity by [1 + wastage_factor/100]; with a wastage
    factor of 0 every quantity stays the number it was. *)
Theorem wastage_scales_each_quantity (g : Globals) (length width : Q)
    (construction_type : string) (wastage_factor : Z) :
  Dict.wf (Dict.get_default (CONSTRUCTION_COEFFICIENTS g) construction_type
             Dict.empty) ->
  exists raw adjusted adjusted0,
    calculate_materials length width construction_type g
      = (Return (raw, length * width), g) /\
    adjusted_materials length width construction_type wastage_factor g
      = (Return (adjusted, length * width), g) /\
    adjusted_materials length width construction_type 0 g
      = (Return (adjusted0, length * width), g) /\
    Dict.keys adjusted = Dict.keys raw /\
    (forall material,
       Dict.get adjusted material
       = option_map (fun v => v * (1 + inject_Z wastage_factor / 100))
           (Dict.get raw material)) /\
    dict_eqv adjusted0 raw.
Proof.
  intros Hwf.
  rewrite calculate_materials_run, !adjusted_materials_run.
  do 3 eexists. do 3 (split; [reflexivity|]).
  fold (materials_view g length width construction_type).
  rewrite !adjusted_view_quantities by assumption.
  rewrite materials_view_quantities by assumption.
  unfold with_wastage. split; [|split].
  - apply keys_map_filter_total.
  - intros material. apply get_map_filter_total.
  - unfold dict_eqv.
    induction (quantities _ (length * width)) as [|[k v] d IH]; simpl.
    + constructor.
    + constructor; [|exact IH]. simpl. split; [reflexivity|].
      change (inject_Z 0) with 0. field.
Qed.

Lemma wastage_scales_each_quantity_witness :
  exists raw adjusted adjusted0,
    calculate_materials 17 70 "Plaster (12mm)" module_globals
      = (Return (raw, 17 * 70), module_globals) /\
    adjusted_materials 17 70 "Plaster (12mm)" 5 module_globals
      = (Return (adjusted, 17 * 70), module_globals) /\
    adjusted_materials 17 70 "Plaster (12mm)" 0 module_globals
      = (Return (adjusted0, 17 * 70), module_globals) /\
    Dict.keys adjusted = Dict.keys raw /\
    (forall material,
       Dict.get adjusted material
       = option_map (fun v => v * (1 + inject_Z 5 / 100))
           (Dict.get raw material)) /\
    dict_eqv adjusted0 raw.
Proof.
  apply (wastage_scales_each_quantity module_globals 17 70 "Plaster (12mm)" 5).
  distinct_keys.
Defined.

(** X3.  For a materials dictionary without repeated keys, the breakdown
    [calculate_cost] returns has no repeated key and holds an entry for a
    name exactly when the name has a quantity and a rate: the quantity
    rounded to two decimals, the rate and the unit of the rate table, and
    [quantity * rate] rounded to two decimals. *)
Theorem calculate_cost_lookup (g : Globals) (materials : Dict.t Q) :
  Dict.wf materials ->
  exists breakdown total,
    calculate_cost materials g = (Return (breakdown, total), g) /\
    Dict.wf breakdown /\
    forall material,
      Dict.get breakdown material
      = match Dict.get materials material,
              Dict.get (MATERIAL_RATES g) material with
        | Some quantity, Some entry =>
            Some {| ce_quantity := round quantity 2;
                    ce_rate := rate entry;
                    ce_unit := unit entry;
                    ce_cost := round (quantity * rate entry) 2 |}
        | _, _ => None
        end.
Proof.
  intros Hwf. rewrite calculate_cost_run, cost_fold_wf by assumption.
  do 2 eexists. split; [reflexivity|]. split.
  - now apply wf_map_filter.
  - intros material. rewrite get_map_filter_wf by assumption.
    unfold priced.
    destruct (Dict.get materials material); [|reflexivity].
    now destruct (Dict.get (MATERIAL_RATES g) material).
Qed.

Lemma calculate_cost_lookup_witness :
  exists breakdown total,
    calculate_cost [("sand", 1.87425); ("gravel", 3); ("cement", 18.7425)]
      module_globals = (Return (breakdown, total), module_globals) /\
    Dict.wf breakdown /\
    forall material,
      Dict.get breakdown material
      = match Dict.get [("sand", 1.87425); ("gravel", 3); ("cement", 18.7425)]
                material,
              Dict.get (MATERIAL_RATES module_globals) material with
        | Some quantity, Some entry =>
            Some {| ce_quantity := round quantity 2;
                    ce_rate := rate entry;
                    ce_unit := unit entry;
                    ce_cost := round (quantity * rate entry) 2 |}
        | _, _ => None
        end.
Proof.
  apply (calculate_cost_lookup module_globals
           [("sand", 1.87425); ("gravel", 3); ("cement", 18.7425)]).
  distinct_keys.
Defined.

(** X4.  Every entry of the breakdown shows its material's quantity to
    within 0.005 and its unrounded line cost, the quantity times the shown
    rate, to within 0.005. *)
Theorem breakdown_entry_near (g : Globals) (materials : Dict.t Q)
    (breakdown : Dict.t CostEntry) (total : Q) (material : string)
    (entry : CostEntry) :
  Dict.wf materials ->
  calculate_cost materials g = (Return (breakdown, total), g) ->
  Dict.get breakdown material = Some entry ->
  exists quantity,
    Dict.get materials material = Some quantity /\
    Qabs (ce_quantity entry - quantity) <= 1 # 200 /\
    Qabs (ce_cost entry - quantity * ce_rate entry) <= 1 # 200.
Proof.
  intros Hwf Hrun Hget.
  rewrite calculate_cost_run, cost_fold_wf in Hrun by assumption.
  injection Hrun as <- <-.
  rewrite get_map_filter_wf in Hget by assumption.
  destruct (Dict.get materials material) as [quantity|]; [|discriminate].
  unfold priced in Hget.
  destruct (Dict.get (MATERIAL_RATES g) material) as [r|]; [|discriminate].
  injection Hget as <-. cbn [ce_quantity ce_cost ce_rate].
  exists quantity. split; [reflexivity|].
  destruct (round2_near quantity) as [H1 H2].
  destruct (round2_near (quantity * rate r)) as [H3 H4].
  split; apply Qabs_Qle_condition; split; lra.
Qed.

Lemma breakdown_entry_near_witness :
  exists quantity,
    Dict.get [("sand", 1.87425); ("cement", 18.7425)] "sand" = Some quantity /\
    Qabs (ce_quantity (mkCost (round 1.87425 2) 1500 "per cum"
                         (round (1.87425 * 1500) 2)) - quantity) <= 1 # 200 /\
    Qabs (ce_cost (mkCost (round 1.87425 2) 1500 "per cum"
                     (round (1.87425 * 1500) 2))
          - quantity * ce_rate (mkCost (round 1.87425 2) 1500 "per cum"
                                  (round (1.87425 * 1500) 2))) <= 1 # 200.
Proof.
  eapply (breakdown_entry_near module_globals
            [("sand", 1.87425); ("cement", 18.7425)] _ _ "sand").
  - distinct_keys.
  - reflexivity.
  - reflexivity.
Defined.

(** ** Costs are proportional to the area *)

Lemma line_costs_scaled (rates : Dict.t RateEntry) (d : Dict.t Q) (k : Q) :
  forall a1 a2,
    a1 == a2 * k ->
    fold_left Qplus
      (line_costs rates (Dict.map_filter (fun _ v => Some (v * k)) d)) a1
    == fold_left Qplus (line_costs rates d) a2 * k.
Proof.
  unfold line_costs, Dict.values.
  induction d as [|[m v] d IH]; simpl; intros a1 a2 Ha.
  - exact Ha.
  - assert (Hline : forall q,
              line_cost rates m q
              = option_map (fun entry => q * rate entry) (Dict.get rates m))
      by (intros q; unfold line_cost; now destruct (Dict.get rates m)).
    rewrite !Hline.
    destruct (Dict.get rates m) as [entry|]; simpl.
    + apply IH. rewrite Ha. ring.
    + now apply IH.
Qed.

Lemma material_cost_scaled (g : Globals) (length width : Q)
    (construction_type : string) (wastage_factor : Z) :
  Dict.wf (Dict.get_default (CONSTRUCTION_COEFFICIENTS g) construction_type
             Dict.empty) ->
  snd (cost_view g length width construction_type wastage_factor)
  == profile_cost g construction_type * (length * width / 100)
     * (1 + inject_Z wastage_factor / 100).
Proof.
  intros Hwf. unfold cost_view.
  rewrite adjusted_view_quantities by assumption.
  rewrite cost_fold_wf
    by (unfold with_wastage, quantities; now do 2 apply wf_map_filter).
  cbn [snd]. unfold total_of, with_wastage, quantities, profile_cost, total_of.
  set (coefficients :=
         Dict.get_default (CONSTRUCTION_COEFFICIENTS g) construction_type
           Dict.empty).
  assert (H0 : 0 == 0 * (1 + inject_Z wastage_factor / 100)) by ring.
  assert (H0' : 0 == 0 * (length * width / 100)) by ring.
  pose proof (line_costs_scaled (MATERIAL_RATES g)
                (Dict.map_filter
                   (fun _ c => Some (c * (length * width / 100))) coefficients)
                (1 + inject_Z wastage_factor / 100) 0 0 H0) as H1.
  pose proof (line_costs_scaled (MATERIAL_RATES g) coefficients
                (length * width / 100) 0 0 H0') as H2.
  etransitivity; [exact H1|]. now rewrite H2.
Qed.

(** X5.  The material cost of an estimate is the cost of the profile's
    materials for 100 sqft, times the area in hundreds of sqft, times the
    wastage factor; the total cost is the material cost times 1.3 with labor
    and the material cost itself without. *)
Theorem material_cost_proportional (g : Globals) (length width : Q)
    (construction_type : string) (wastage_factor : Z) (include_labor : bool) :
  Dict.wf (Dict.get_default (CONSTRUCTION_COEFFICIENTS g) construction_type
             Dict.empty) ->
  exists e,
    estimate_costs length width construction_type wastage_factor
      include_labor g = (Return e, g) /\
    material_cost e
    == profile_cost g construction_type * (length * width / 100)
       * (1 + inject_Z wastage_factor / 100) /\
    total_cost e == material_cost e * (if include_labor then 1.3 else 1).
Proof.
  intros Hwf. rewrite estimate_costs_run.
  eexists. split; [reflexivity|].
  cbn [material_cost total_cost estimate_view].
  split; [now apply material_cost_scaled|].
  destruct include_labor; ring.
Qed.

Lemma material_cost_proportional_witness :
  exists e,
    estimate_costs 17 70 "RCC Slab (4 inch)" 5 true module_globals
      = (Return e, module_globals) /\
    material_cost e
    == profile_cost module_globals "RCC Slab (4 inch)" * (17 * 70 / 100)
       * (1 + inject_Z 5 / 100) /\
    total_cost e == material_cost e * 1.3.
Proof.
  apply (material_cost_proportional module_globals 17 70 "RCC Slab (4 inch)"
           5 true).
  distinct_keys.
Defined.

(** ** Only the area counts *)

Lemma round_half_even_comp (x y : Q) :
  x == y -> round_half_even x = round_half_even y.
Proof.
  intros Hxy. unfold round_half_even.
  rewrite (Qfloor_comp _ _ Hxy).
  assert (Hc : Qcompare (x - inject_Z (Qfloor y)) (1 # 2)
               = Qcompare (y - inject_Z (Qfloor y)) (1 # 2))
    by (apply Qcompare_comp; [now rewrite Hxy | reflexivity]).
  now rewrite Hc.
Qed.

Lemma round_comp (x y : Q) (ndigits : nat) :
  x == y -> round x ndigits = round y ndigits.
Proof.
  intros Hxy. unfold round. cbv zeta.
  assert (H : round_half_even (x * inject_Z (10 ^ Z.of_nat ndigits))
              = round_half_even (y * inject_Z (10 ^ Z.of_nat ndigits)))
    by (apply round_half_even_comp; now rewrite Hxy).
  now rewrite H.
Qed.

Lemma set_eqv (d1 d2 : Dict.t Q) (k : string) (v1 v2 : Q) :
  dict_eqv d1 d2 -> v1 == v2 ->
  dict_eqv (Dict.set d1 k v1) (Dict.set d2 k v2).
Proof.
  unfold dict_eqv. intros Hd Hv.
  induction Hd as [|[k1 x1] [k2 x2] d1 d2 [Hk Hx] Hd IH]; simpl in *.
  - constructor; [split; [reflexivity | exact Hv] | constructor].
  - subst k2. destruct (String.eqb k1 k).
    + constructor; [split; [reflexivity | exact Hv] | exact Hd].
    + constructor; [split; [reflexivity | exact Hx] | exact IH].
Qed.

Lemma scaled_fold_eqv (d1 d2 : Dict.t Q) (k1 k2 : Q) :
  dict_eqv d1 d2 -> k1 == k2 ->
  forall acc1 acc2,
    dict_eqv acc1 acc2 ->
    dict_eqv
      (fold_left (fun acc kv => Dict.set acc (fst kv) (snd kv * k1)) d1 acc1)
      (fold_left (fun acc kv => Dict.set acc (fst kv) (snd kv * k2)) d2 acc2).
Proof.
  intros Hd Hk.
  induction Hd as [|[m1 x1] [m2 x2] d1 d2 [Hm Hx] Hd IH]; simpl in *;
    intros acc1 acc2 Hacc.
  - exact Hacc.
  - subst m2. apply IH. apply set_eqv; [exact Hacc|].
    now rewrite Hx, Hk.
Qed.

Lemma dict_eqv_refl (d : Dict.t Q) : dict_eqv d d.
Proof.
  unfold dict_eqv. induction d as [|kv d IH]; constructor; auto.
  split; reflexivity.
Qed.

Lemma cost_fold_eqv (rates : Dict.t RateEntry) (m1 m2 : Dict.t Q) :
  dict_eqv m1 m2 ->
  forall bd t1 t2,
    t1 == t2 ->
    fst (fold_left (cost_step rates) m1 (bd, t1))
      = fst (fold_left (cost_step rates) m2 (bd, t2)) /\
    snd (fold_left (cost_step rates) m1 (bd, t1))
      == snd (fold_left (cost_step rates) m2 (bd, t2)).
Proof.
  intros Hm.
  induction Hm as [|[k1 q1] [k2 q2] m1 m2 [Hk Hq] Hm IH]; simpl in *;
    intros bd t1 t2 Ht.
  - split; [reflexivity | exact Ht].
  - subst k2.
    assert (Hstep : forall q t,
      cost_step rates (bd, t) (k1, q)
      = match Dict.get rates k1 with
        | Some entry =>
            (Dict.set bd k1
               {| ce_quantity := round q 2;
                  ce_rate := rate entry;
                  ce_unit := unit entry;
                  ce_cost := round (q * rate entry) 2 |},
             t + q * rate entry)
        | None => (bd, t)
        end) by reflexivity.
    rewrite !Hstep.
    destruct (Dict.get rates k1) as [entry|].
    + rewrite (round_comp q1 q2 2 Hq).
      rewrite (round_comp (q1 * rate entry) (q2 * rate entry) 2)
        by now rewrite Hq.
      apply IH. now rewrite Ht, Hq.
    + now apply IH.
Qed.

(** X7.  An estimate depends on the dimensions only through the area: two
    requests with equal [length * width] and the same type, wastage and
    labor choice get the same breakdown and equal material, labor and total
    costs.  In particular length and width can be swapped. *)
Theorem estimate_depends_on_area_only (g : Globals)
    (length1 width1 length2 width2 : Q) (construction_type : string)
    (wastage_factor : Z) (include_labor : bool) :
  length1 * width1 == length2 * width2 ->
  exists e1 e2,
    estimate_costs length1 width1 construction_type wastage_factor
      include_labor g = (Return e1, g) /\
    estimate_costs length2 width2 construction_type wastage_factor
      include_labor g = (Return e2, g) /\
    cost_breakdown e1 = cost_breakdown e2 /\
    material_cost e1 == material_cost e2 /\
    labor_cost e1 == labor_cost e2 /\
    total_cost e1 == total_cost e2.
Proof.
  intros Harea. rewrite !estimate_costs_run.
  do 2 eexists. do 2 (split; [reflexivity|]).
  cbn [cost_breakdown material_cost labor_cost total_cost estimate_view].
  assert (Hadj :
    dict_eqv
      (adjusted_view g length1 width1 construction_type wastage_factor)
      (adjusted_view g length2 width2 construction_type wastage_factor)).
  { unfold adjusted_view, Dict.comprehension, Dict.items.
    apply scaled_fold_eqv; [|reflexivity | constructor].
    unfold materials_view.
    apply scaled_fold_eqv; [apply dict_eqv_refl | | constructor].
    now rewrite Harea. }
  destruct (cost_fold_eqv (MATERIAL_RATES g) _ _ Hadj Dict.empty 0 0
              (Qeq_refl 0)) as [Hbd Htotal].
  fold (cost_view g length1 width1 construction_type wastage_factor)
    in Hbd, Htotal.
  fold (cost_view g length2 width2 construction_type wastage_factor)
    in Hbd, Htotal.
  split; [exact Hbd|]. split; [exact Htotal|].
  destruct include_labor.
  - split; now rewrite Htotal.
  - split; [reflexivity | now rewrite Htotal].
Qed.

Lemma estimate_depends_on_area_only_witness :
  exists e1 e2,
    estimate_costs 17 70 "Brick Wall (9 inch)" 5 true module_globals
      = (Return e1, module_globals) /\
    estimate_costs 70 17 "Brick Wall (9 inch)" 5 true module_globals
      = (Return e2, module_globals) /\
    cost_breakdown e1 = cost_breakdown e2 /\
    material_cost e1 == material_cost e2 /\
    labor_cost e1 == labor_cost e2 /\
    total_cost e1 == total_cost e2.
Proof.
  apply (estimate_depends_on_area_only module_globals 17 70 70 17
           "Brick Wall (9 inch)" 5 true).
  reflexivity.
Defined.

(** ** Signs and growth of the shown values *)

Lemma round_half_even_le (x y : Q) :
  x <= y -> (round_half_even x <= round_half_even y)%Z.
Proof.
  intros Hxy. unfold round_half_even.
  pose proof (Qfloor_resp_le _ _ Hxy) as Hf.
  pose proof (Qfloor_le x) as Hx1. pose proof (Qlt_floor x) as Hx2.
  pose proof (Qfloor_le y) as Hy1. pose proof (Qlt_floor y) as Hy2.
  rewrite inject_Z_plus in Hx2, Hy2. change (inject_Z 1) with 1 in Hx2, Hy2.
  destruct (Z.eq_dec (Qfloor x) (Qfloor y)) as [E|NE].
  - rewrite E in *.
    destruct (Qcompare_spec (x - inject_Z (Qfloor y)) (1 # 2));
      destruct (Qcompare_spec (y - inject_Z (Qfloor y)) (1 # 2));
      destruct (Z.even (Qfloor y)); try lia; exfalso; lra.
  - destruct (Qcompare_spec (x - inject_Z (Qfloor x)) (1 # 2));
      destruct (Qcompare_spec (y - inject_Z (Qfloor y)) (1 # 2));
      destruct (Z.even (Qfloor x)); destruct (Z.even (Qfloor y)); lia.
Qed.

(** Rounding to two decimals keeps the order. *)
Lemma round2_le (x y : Q) : x <= y -> round x 2 <= round y 2.
Proof.
  intros Hxy. unfold round.
  change (inject_Z (10 ^ Z.of_nat 2)) with 100.
  assert (H : (round_half_even (x * 100) <= round_half_even (y * 100))%Z)
    by (apply round_half_even_le; lra).
  rewrite Zle_Qle in H. rewrite !div100. lra.
Qed.

Lemma round2_nonneg (x : Q) : 0 <= x -> 0 <= round x 2.
Proof.
  intros Hx. apply (round2_le 0 x) in Hx.
  assert (H0 : round 0 2 == 0) by reflexivity.
  now rewrite H0 in Hx.
Qed.

Lemma module_rates_positive (material : string) (entry : RateEntry) :
  Dict.get (MATERIAL_RATES module_globals) material = Some entry ->
  0 < rate entry.
Proof.
  intros Hget. apply get_In in Hget.
  cbn [module_globals MATERIAL_RATES In] in Hget.
  repeat (destruct Hget as [Hget|Hget];
          [injection Hget as <- <-; reflexivity|]).
  contradiction.
Qed.

Lemma module_profile_cost_nonneg (construction_type : string) :
  0 <= profile_cost module_globals construction_type.
Proof.
  unfold profile_cost.
  apply (get_default_Forall
           (fun coefficients : Dict.t Q =>
              0 <= total_of
                     (line_costs (MATERIAL_RATES module_globals) coefficients))).
  - discriminate.
  - each_profile; vm_compute; discriminate.
Qed.

Lemma module_profile_cost_positive (construction_type : string) :
  Dict.contains (CONSTRUCTION_COEFFICIENTS module_globals) construction_type
    = true ->
  0 < profile_cost module_globals construction_type.
Proof.
  unfold Dict.contains, profile_cost, Dict.get_default.
  destruct (Dict.get (CONSTRUCTION_COEFFICIENTS module_globals)
              construction_type) as [coefficients|] eqn:E; [|discriminate].
  intros _. apply get_In in E.
  cbn [module_globals CONSTRUCTION_COEFFICIENTS In] in E.
  repeat (destruct E as [E|E]; [injection E as <- <-; reflexivity|]).
  contradiction.
Qed.

(** The breakdown of an estimate over the module's tables, key by key. *)
Lemma module_breakdown_lookup (length width : Q) (construction_type : string)
    (wastage_factor : Z) (material : string) :
  Dict.get (fst (cost_view module_globals length width construction_type
                   wastage_factor)) material
  = match Dict.get (Dict.get_default
                      (CONSTRUCTION_COEFFICIENTS module_globals)
                      construction_type Dict.empty) material with
    | Some c =>
        priced (MATERIAL_RATES module_globals) material
          (c * (length * width / 100) * (1 + inject_Z wastage_factor / 100))
    | None => None
    end.
Proof.
  unfold cost_view.
  pose proof (profiles_wf construction_type) as Hwf.
  rewrite adjusted_view_quantities by assumption.
  assert (Hwf' : Dict.wf
            (with_wastage
               (quantities
                  (Dict.get_default (CONSTRUCTION_COEFFICIENTS module_globals)
                     construction_type Dict.empty) (length * width))
               wastage_factor))
    by (unfold with_wastage, quantities; now do 2 apply wf_map_filter).
  rewrite cost_fold_wf by assumption. cbn [fst].
  rewrite get_map_filter_wf by assumption.
  unfold with_wastage, quantities. rewrite !get_map_filter_total.
  now destruct (Dict.get _ material).
Qed.

(** X8.  With the module's tables and a positive area, the quantity and the
    cost an entry of the breakdown shows, and the material cost, do not
    decrease when the area and the wastage percent do not decrease. *)
Theorem shown_values_monotone (construction_type material : string)
    (length1 width1 length2 width2 : Q) (wastage1 wastage2 : Z)
    (labor1 labor2 : bool) (e1 e2 : Estimate) (entry1 : CostEntry) :
  0 < length1 * width1 ->
  length1 * width1 <= length2 * width2 ->
  (0 <= wastage1 <= wastage2)%Z ->
  estimate_costs length1 width1 construction_type wastage1 labor1
    module_globals = (Return e1, module_globals) ->
  estimate_costs length2 width2 construction_type wastage2 labor2
    module_globals = (Return e2, module_globals) ->
  Dict.get (cost_breakdown e1) material = Some entry1 ->
  exists entry2,
    Dict.get (cost_breakdown e2) material = Some entry2 /\
    ce_quantity entry1 <= ce_quantity entry2 /\
    ce_cost entry1 <= ce_cost entry2 /\
    material_cost e1 <= material_cost e2.
Proof.
  intros Ha1 Ha Hw Hrun1 Hrun2 Hget.
  rewrite estimate_costs_run in Hrun1, Hrun2.
  injection Hrun1 as <-. injection Hrun2 as <-.
  cbn [cost_breakdown material_cost estimate_view] in *.
  rewrite module_breakdown_lookup in Hget. rewrite module_breakdown_lookup.
  destruct (Dict.get (Dict.get_default _ construction_type Dict.empty) material)
    as [c|] eqn:Hc; [|discriminate].
  pose proof (module_coefficients_positive _ _ _ Hc) as Hpos.
  unfold priced in *.
  destruct (Dict.get (MATERIAL_RATES module_globals) material)
    as [r|] eqn:Hr; [|discriminate].
  pose proof (module_rates_positive _ _ Hr) as Hrate.
  injection Hget as <-. eexists. split; [reflexivity|].
  cbn [ce_quantity ce_cost].
  assert (Hf1 : 0 <= inject_Z wastage1)
    by (change 0 with (inject_Z 0); rewrite <- Zle_Qle; lia).
  assert (Hf : inject_Z wastage1 <= inject_Z wastage2)
    by (rewrite <- Zle_Qle; lia).
  set (a1 := length1 * width1) in *. set (a2 := length2 * width2) in *.
  assert (Hq : c * (a1 / 100) * (1 + inject_Z wastage1 / 100)
               <= c * (a2 / 100) * (1 + inject_Z wastage2 / 100)).
  { rewrite !div100.
    assert (Hp : c * (a1 * (1 # 100)) <= c * (a2 * (1 # 100))) by nra.
    assert (Hp0 : 0 < c * (a1 * (1 # 100))) by nra.
    nra. }
  split; [now apply round2_le|]. split.
  - apply round2_le. nra.
  - rewrite !material_cost_scaled by apply profiles_wf.
    fold a1 a2. pose proof (module_profile_cost_nonneg construction_type) as HP.
    rewrite !div100.
    assert (Hp : profile_cost module_globals construction_type
                   * (a1 * (1 # 100))
                 <= profile_cost module_globals construction_type
                   * (a2 * (1 # 100))) by nra.
    assert (Hp0 : 0 <= profile_cost module_globals construction_type
                       * (a1 * (1 # 100))) by nra.
    nra.
Qed.

Lemma shown_values_monotone_witness :
  exists entry2,
    Dict.get
      (cost_breakdown
         (estimate_view module_globals 17 70 "Plaster (12mm)" 10 true))
      "sand" = Some entry2 /\
    ce_quantity
      (mkCost (round (0.15 * (17 * 70 / 100) * (1 + inject_Z 5 / 100)) 2)
         1500 "per cum"
         (round (0.15 * (17 * 70 / 100) * (1 + inject_Z 5 / 100) * 1500) 2))
      <= ce_quantity entry2 /\
    ce_cost
      (mkCost (round (0.15 * (17 * 70 / 100) * (1 + inject_Z 5 / 100)) 2)
         1500 "per cum"
         (round (0.15 * (17 * 70 / 100) * (1 + inject_Z 5 / 100) * 1500) 2))
      <= ce_cost entry2 /\
    material_cost (estimate_view module_globals 17 70 "Plaster (12mm)" 5 true)
      <= material_cost
           (estimate_view module_globals 17 70 "Plaster (12mm)" 10 true).
Proof.
  apply (shown_values_monotone "Plaster (12mm)" "sand" 17 70 17 70 5 10
           true true);
    try reflexivity; try lia; discriminate.
Defined.

(** X9.  With the module's tables, a length and a width of at least 1, a
    wastage percent within 0..20 and a construction type of the table, the
    estimate returns with a positive material cost, a labor cost that is not
    negative and a total cost not below the material cost, and no entry of
    the breakdown shows a negative quantity or cost. *)
Theorem widget_request_positive_costs (length width : Q)
    (construction_type : string) (wastage_factor : Z) (include_labor : bool) :
  1 <= length -> 1 <= width -> (0 <= wastage_factor <= 20)%Z ->
  Dict.contains (CONSTRUCTION_COEFFICIENTS module_globals) construction_type
    = true ->
  exists r,
    estimate length width construction_type wastage_factor include_labor
      module_globals = (Return r, module_globals) /\
    0 < material_cost (estimate_of r) /\
    0 <= labor_cost (estimate_of r) /\
    material_cost (estimate_of r) <= total_cost (estimate_of r) /\
    forall material entry,
      Dict.get (cost_breakdown (estimate_of r)) material = Some entry ->
      0 <= ce_quantity entry /\ 0 <= ce_cost entry.
Proof.
  intros Hl Hw Hr Hkey.
  assert (Harea : 1 <= length * width) by nra.
  rewrite estimate_run. cbv zeta.
  destruct (Qeq_bool (length * width) 0) eqn:E.
  { apply Qeq_bool_eq in E. rewrite E in Harea. destruct (Harea eq_refl). }
  eexists. split; [reflexivity|].
  cbn [estimate_of cost_per_sqft material_cost labor_cost total_cost
       cost_breakdown estimate_view].
  pose proof (material_cost_scaled module_globals length width
                construction_type wastage_factor
                (profiles_wf construction_type)) as Hcost.
  pose proof (module_profile_cost_positive _ Hkey) as HP.
  assert (Hf : 0 <= inject_Z wastage_factor)
    by (change 0 with (inject_Z 0); rewrite <- Zle_Qle; lia).
  set (a := length * width) in *.
  set (mc := snd (cost_view module_globals length width construction_type
                    wastage_factor)) in *.
  assert (Hmc : 0 < mc).
  { rewrite Hcost. rewrite !div100.
    assert (0 < profile_cost module_globals construction_type
                * (a * (1 # 100))) by nra.
    nra. }
  assert (Hlabor : 0 <= (if include_labor then mc * 0.3 else 0))
    by (destruct include_labor; lra).
  split; [exact Hmc|]. split; [exact Hlabor|]. split; [lra|].
  intros material entry Hget.
  rewrite module_breakdown_lookup in Hget.
  destruct (Dict.get (Dict.get_default _ construction_type Dict.empty)
              material) as [c|] eqn:Hc; [|discriminate].
  pose proof (module_coefficients_positive _ _ _ Hc) as Hpos.
  unfold priced in Hget.
  destruct (Dict.get (MATERIAL_RATES module_globals) material)
    as [rt|] eqn:Hrt; [|discriminate].
  pose proof (module_rates_positive _ _ Hrt) as Hrate.
  injection Hget as <-. cbn [ce_quantity ce_cost].
  assert (Hq : 0 <= c * (a / 100) * (1 + inject_Z wastage_factor / 100)).
  { rewrite !div100.
    assert (0 < c * (a * (1 # 100))) by nra. nra. }
  split; apply round2_nonneg; [exact Hq|].
  apply Qmult_le_0_compat; [exact Hq | now apply Qlt_le_weak].
Qed.

Lemma widget_request_positive_costs_witness :
  exists r,
    estimate 17 70 "Flooring (IPS)" 5 false module_globals
      = (Return r, module_globals) /\
    0 < material_cost (estimate_of r) /\
    0 <= labor_cost (estimate_of r) /\
    material_cost (estimate_of r) <= total_cost (estimate_of r) /\
    forall material entry,
      Dict.get (cost_breakdown (estimate_of r)) material = Some entry ->
      0 <= ce_quantity entry /\ 0 <= ce_cost entry.
Proof.
  apply (widget_request_positive_costs 17 70 "Flooring (IPS)" 5 false);
    try reflexivity; try lia; apply Qle_bool_imp_le; reflexivity.
Defined.

(** X10.  From any store, for a construction type that is not in the
    coefficient table and an area other than zero, the estimate returns with
    an empty breakdown, a material cost of 0 and labor cost, total cost and
    cost per sqft all equal to 0. *)
Theorem unknown_type_costs_nothing (g : Globals) (length width : Q)
    (construction_type : string) (wastage_factor : Z) (include_labor : bool) :
  Dict.contains (CONSTRUCTION_COEFFICIENTS g) construction_type = false ->
  ~ length * width == 0 ->
  exists r,
    estimate length width construction_type wastage_factor include_labor g
      = (Return r, g) /\
    cost_breakdown (estimate_of r) = Dict.empty /\
    material_cost (estimate_of r) = 0 /\
    labor_cost (estimate_of r) == 0 /\
    total_cost (estimate_of r) == 0 /\
    cost_per_sqft r == 0.
Proof.
  intros Hkey Harea. rewrite estimate_run. cbv zeta.
  destruct (Qeq_bool (length * width) 0) eqn:E.
  { apply Qeq_bool_eq in E. contradiction. }
  eexists. split; [reflexivity|].
  cbn [estimate_of cost_per_sqft material_cost labor_cost total_cost
       cost_breakdown estimate_view].
  unfold cost_view, adjusted_view, materials_view, Dict.get_default.
  unfold Dict.contains in Hkey.
  destruct (Dict.get (CONSTRUCTION_COEFFICIENTS g) construction_type);
    [discriminate|].
  cbn [fold_left Dict.comprehension Dict.items Dict.empty fst snd].
  split; [reflexivity|]. split; [reflexivity|].
  assert (Hnz : ~ width == 0 /\ ~ length == 0).
  { split; intros H; apply Harea; rewrite H; ring. }
  destruct include_labor; repeat split; try ring; field; exact Hnz.
Qed.

Lemma unknown_type_costs_nothing_witness :
  exists r,
    estimate 10 5 "Roof" 5 true module_globals = (Return r, module_globals) /\
    cost_breakdown (estimate_of r) = Dict.empty /\
    material_cost (estimate_of r) = 0 /\
    labor_cost (estimate_of r) == 0 /\
    total_cost (estimate_of r) == 0 /\
    cost_per_sqft r == 0.
Proof.
  apply (unknown_type_costs_nothing module_globals 10 5 "Roof" 5 true).
  - reflexivity.
  - discriminate.
Defined.

(** * The material table and the chart *)

(** ** Labels *)

(** A character of a name, after [replace] and [title], is the character
    again once it is lowered and a space is turned back into an
    underscore. *)
Lemma label_char_back (previous_is_cased : bool) (c : ascii) :
  is_lower c || is_digit c || Ascii.eqb c "_"%char = true ->
  let c' := if Ascii.eqb c "_"%char then " "%char else c in
  let t := if previous_is_cased then to_lower c' else to_upper c' in
  (if Ascii.eqb (to_lower t) " "%char then "_"%char else to_lower t) = c.
Proof.
  destruct previous_is_cased;
    destruct c as [[] [] [] [] [] [] [] []]; vm_compute;
    intros H; try reflexivity; discriminate H.
Qed.

Lemma label_back_title (s : string) :
  forall previous_is_cased,
    identifier_like s = true ->
    label_back (title_from previous_is_cased (replace s "_"%char " "%char)) = s.
Proof.
  induction s as [|c s IH]; simpl; intros b Hs; [reflexivity|].
  apply andb_true_iff in Hs. destruct Hs as [Hc Hs].
  rewrite IH by assumption.
  now rewrite (label_char_back b c Hc).
Qed.

(** The name is read back from its label. *)
Lemma label_back_display_name (material : string) :
  identifier_like material = true ->
  label_back (display_name material) = material.
Proof. intros H. unfold display_name, title. now apply label_back_title. Qed.

(** X11.  Two names made of lower-case letters, digits and underscores that
    get the same label are the same name. *)
Theorem display_name_injective (material1 material2 : string) :
  identifier_like material1 = true ->
  identifier_like material2 = true ->
  display_name material1 = display_name material2 ->
  material1 = material2.
Proof.
  intros H1 H2 Heq.
  rewrite <- (label_back_display_name material1 H1).
  rewrite <- (label_back_display_name material2 H2).
  now rewrite Heq.
Qed.

Lemma display_name_injective_witness :
  identifier_like "aggregate_20mm" = true /\
  display_name "aggregate_20mm" = "Aggregate 20Mm" /\
  "aggregate_20mm" = "aggregate_20mm".
Proof.
  split; [reflexivity|]. split; [reflexivity|].
  apply (display_name_injective "aggregate_20mm" "aggregate_20mm");
    reflexivity.
Defined.

(** ** Rows and columns *)

Lemma fold_append {A B : Type} (f : A -> B) (l : list A) :
  forall acc,
    fold_left (fun acc x => (acc ++ [f x])%list) l acc = (acc ++ map f l)%list.
Proof.
  induction l as [|x l IH]; simpl; intros acc.
  - now rewrite app_nil_r.
  - rewrite IH. now rewrite <- app_assoc.
Qed.

(** In a dictionary without repeated keys every key finds its own value. *)
Lemma get_own_values {V : Type} (d : Dict.t V) :
  Dict.wf d -> map (Dict.get d) (Dict.keys d) = map Some (Dict.values d).
Proof.
  unfold Dict.wf, Dict.keys, Dict.values.
  induction d as [|[k v] d IH]; simpl; intros Hwf; [reflexivity|].
  inversion Hwf as [|? ? Hk Hd]; subst.
  rewrite String.eqb_refl. f_equal.
  rewrite <- IH by assumption.
  apply map_ext_in. intros k' Hin.
  destruct (String.eqb_spec k k') as [->|Hne]; [contradiction | reflexivity].
Qed.

Lemma bind_run {A B : Type} (m : Py A) (k : A -> Py B) (g g' : Globals)
    (a : A) :
  m g = (Return a, g') -> bind m k g = k a g'.
Proof. intros H. unfold bind. now rewrite H. Qed.

(** The loop over the keys of the chart's cost column. *)
Lemma chart_costs_run (breakdown : Dict.t CostEntry) (ks : list string) :
  (forall k, In k ks -> In k (Dict.keys breakdown)) ->
  forall costs g,
    for_each ks
      (fun costs m =>
         details <- getitem breakdown m ;;
         ret (costs ++ [ce_cost details])%list)
      costs g
    = (Return
         (costs ++
          flat_map (fun k => match Dict.get breakdown k with
                             | Some details => [ce_cost details]
                             | None => []
                             end) ks)%list, g).
Proof.
  induction ks as [|k ks IH]; simpl; intros Hks costs g.
  - now rewrite app_nil_r.
  - destruct (In_key_get breakdown k (Hks k (or_introl eq_refl)))
      as [details Hget].
    unfold bind at 1. unfold getitem, bind. rewrite Hget. unfold ret at 1 2.
    rewrite IH by auto. now rewrite <- app_assoc.
Qed.

Lemma flat_map_own_costs (breakdown : Dict.t CostEntry) :
  Dict.wf breakdown ->
  flat_map (fun k => match Dict.get breakdown k with
                     | Some details => [ce_cost details]
                     | None => []
                     end) (Dict.keys breakdown)
  = map ce_cost (Dict.values breakdown).
Proof.
  intros Hwf. pose proof (get_own_values breakdown Hwf) as Hown.
  revert Hown.
  generalize (Dict.get breakdown) as lookup.
  generalize (Dict.values breakdown) as vs.
  generalize (Dict.keys breakdown) as ks.
  induction ks as [|k ks IH]; intros [|v vs] lookup Hown;
    simpl in *; try discriminate; [reflexivity|].
  injection Hown as Hk Hrest. rewrite Hk. simpl. f_equal. now apply IH.
Qed.

Section PresentationFacts.

Variable format_2f : Q -> string.
Variable format_rate : Q -> string.
Variable format_money : Q -> string.

(** The loop appends one row per entry. *)
Lemma material_data_rows (breakdown : Dict.t CostEntry) :
  material_data format_2f format_rate format_money breakdown
  = map (fun kv =>
           {| Material := display_name (fst kv);
              Quantity := format_2f (ce_quantity (snd kv));
              Unit := ce_unit (snd kv);
              Rate := format_rate (ce_rate (snd kv));
              Cost := format_money (ce_cost (snd kv)) |}) breakdown.
Proof.
  unfold material_data, Dict.items.
  rewrite <- (app_nil_l (map _ breakdown)).
  rewrite <- fold_append.
  apply fold_left_ext. now intros acc [k d].
Qed.

(** X12.  For a breakdown without repeated keys, the table has one row per
    entry, in order, and the chart is built without an error: its columns
    have the same length, and row by row they hold the label and the shown
    cost of the same entry. *)
Theorem chart_data_aligned (g : Globals) (breakdown : Dict.t CostEntry) :
  Dict.wf breakdown ->
  List.length (material_data format_2f format_rate format_money breakdown)
    = List.length breakdown /\
  chart_data breakdown
    (material_data format_2f format_rate format_money breakdown) g
  = (Return {| chart_Material := map display_name (Dict.keys breakdown);
               chart_Cost := map ce_cost (Dict.values breakdown) |}, g) /\
  combine (map display_name (Dict.keys breakdown))
          (map ce_cost (Dict.values breakdown))
  = map (fun kv => (display_name (fst kv), ce_cost (snd kv))) breakdown.
Proof.
  intros Hwf. rewrite material_data_rows. split; [apply length_map|]. split.
  - unfold chart_data.
    erewrite bind_run by (apply chart_costs_run; auto).
    rewrite flat_map_own_costs by assumption.
    cbn [app]. rewrite map_map. cbn [Material].
    unfold Dict.keys, Dict.values. rewrite !length_map, Nat.eqb_refl.
    unfold ret. now rewrite (map_map fst display_name).
  - unfold Dict.keys, Dict.values.
    induction breakdown as [|[k d] breakdown IH]; simpl; [reflexivity|].
    f_equal. apply IH. now inversion Hwf.
Qed.

End PresentationFacts.

Lemma chart_data_aligned_witness :
  Dict.wf [("cement", mkCost 18.74 400 "per bag" 7497);
           ("sand", mkCost 1.87 1500 "per cum" 2811.38)] /\
  chart_data
    [("cement", mkCost 18.74 400 "per bag" 7497);
     ("sand", mkCost 1.87 1500 "per cum" 2811.38)]
    (material_data (fun _ => "") (fun _ => "") (fun _ => "")
       [("cement", mkCost 18.74 400 "per bag" 7497);
        ("sand", mkCost 1.87 1500 "per cum" 2811.38)])
    module_globals
  = (Return {| chart_Material := ["Cement"; "Sand"];
               chart_Cost := [7497; 2811.38] |}, module_globals).
Proof.
  assert (Hwf : Dict.wf [("cement", mkCost 18.74 400 "per bag" 7497);
                         ("sand", mkCost 1.87 1500 "per cum" 2811.38)])
    by distinct_keys.
  split; [exact Hwf|].
  exact (proj1 (proj2 (chart_data_aligned (fun _ => "") (fun _ => "")
                         (fun _ => "") module_globals _ Hwf))).
Defined.

Lemma NoDup_map_on {A B : Type} (f : A -> B) (l : list A) :
  (forall x y, In x l -> In y l -> f x = f y -> x = y) ->
  NoDup l -> NoDup (map f l).
Proof.
  intros Hinj Hl. induction Hl as [|x l Hx Hl IH]; simpl; constructor.
  - intros Hin. apply in_map_iff in Hin. destruct Hin as (y & Hy & Hin).
    apply Hx. rewrite (Hinj x y); auto; [now left | now right].
  - apply IH. intros a b Ha Hb. apply Hinj; now right.
Qed.

Lemma module_profile_names (construction_type material : string) :
  In material
     (Dict.keys (Dict.get_default (CONSTRUCTION_COEFFICIENTS module_globals)
                   construction_type Dict.empty)) ->
  identifier_like material = true.
Proof.
  revert material. apply Forall_forall.
  apply (get_default_Forall
           (fun coefficients : Dict.t Q =>
              Forall (fun m => identifier_like m = true)
                     (Dict.keys coefficients))).
  - apply Forall_nil.
  - each_profile; unfold Dict.keys; cbn [map fst];
      repeat apply Forall_cons; try apply Forall_nil; reflexivity.
Qed.

Lemma module_breakdown_keys (length width : Q) (construction_type : string)
    (wastage_factor : Z) :
  Dict.keys (fst (cost_view module_globals length width construction_type
                    wastage_factor))
  = Dict.keys (Dict.get_default (CONSTRUCTION_COEFFICIENTS module_globals)
                 construction_type Dict.empty).
Proof.
  unfold cost_view.
  pose proof (profiles_wf construction_type) as Hwf.
  rewrite adjusted_view_quantities by assumption.
  set (coefficients :=
         Dict.get_default (CONSTRUCTION_COEFFICIENTS module_globals)
           construction_type Dict.empty) in *.
  set (materials :=
         with_wastage (quantities coefficients (length * width))
           wastage_factor).
  assert (Hkeys : Dict.keys materials = Dict.keys coefficients)
    by (unfold materials, with_wastage, quantities;
        now rewrite !keys_map_filter_total).
  assert (Hwf' : Dict.wf materials)
    by (unfold Dict.wf; now rewrite Hkeys).
  rewrite cost_fold_wf by assumption. cbn [fst].
  rewrite <- Hkeys. apply keys_map_filter_all.
  intros k v Hin. unfold priced.
  assert (Hk : In k (Dict.keys coefficients))
    by (rewrite <- Hkeys; apply (in_map fst) in Hin; exact Hin).
  unfold coefficients, Dict.get_default in Hk.
  destruct (Dict.get (CONSTRUCTION_COEFFICIENTS module_globals)
              construction_type) as [cs|] eqn:Hcs; [|contradiction].
  pose proof (module_profiles_priced construction_type cs k Hcs Hk) as Hp.
  unfold Dict.contains in Hp.
  destruct (Dict.get (MATERIAL_RATES module_globals) k); discriminate.
Qed.

(** X13.  With the module's tables no two rows of the material table of an
    estimate carry the same label, whatever the request. *)
Theorem table_labels_distinct (format_2f format_rate format_money : Q -> string)
    (length width : Q) (construction_type : string) (wastage_factor : Z)
    (include_labor : bool) :
  exists e,
    estimate_costs length width construction_type wastage_factor
      include_labor module_globals = (Return e, module_globals) /\
    NoDup (map Material
             (material_data format_2f format_rate format_money
                (cost_breakdown e))).
Proof.
  rewrite estimate_costs_run. eexists. split; [reflexivity|].
  cbn [cost_breakdown estimate_view].
  rewrite material_data_rows, map_map. cbn [Material].
  rewrite <- (map_map fst display_name).
  fold (Dict.keys (fst (cost_view module_globals length width
                          construction_type wastage_factor))).
  rewrite module_breakdown_keys.
  apply NoDup_map_on; [|apply profiles_wf].
  intros x y Hx Hy Heq.
  rewrite <- (label_back_display_name x), <- (label_back_display_name y), Heq;
    [reflexivity | |]; eapply module_profile_names; eauto.
Qed.

(** * Quantities never decrease *)

(** C6, amended.  With the module's tables, positive dimensions and
    wastage percents within 0..20, when neither the area nor the wastage
    percent decreases from one request to another of the same construction
    type, the two estimates have the same materials, and no adjusted
    quantity and no quantity shown in the breakdown decreases.  This covers
    a growing wastage percent at a fixed area and a growing area at a fixed
    wastage percent. *)
Theorem line_quantities_nondecreasing (construction_type : string)
    (length1 width1 length2 width2 : Q) (wastage1 wastage2 : Z)
    (labor1 labor2 : bool) :
  0 < length1 -> 0 < width1 -> 0 < length2 -> 0 < width2 ->
  (0 <= wastage1 <= 20)%Z -> (0 <= wastage2 <= 20)%Z ->
  length1 * width1 <= length2 * width2 ->
  (wastage1 <= wastage2)%Z ->
  exists materials1 materials2 e1 e2,
    adjusted_materials length1 width1 construction_type wastage1 module_globals
      = (Return (materials1, length1 * width1), module_globals) /\
    adjusted_materials length2 width2 construction_type wastage2 module_globals
      = (Return (materials2, length2 * width2), module_globals) /\
    estimate_costs length1 width1 construction_type wastage1 labor1
      module_globals = (Return e1, module_globals) /\
    estimate_costs length2 width2 construction_type wastage2 labor2
      module_globals = (Return e2, module_globals) /\
    Dict.keys materials1 = Dict.keys materials2 /\
    Dict.keys (cost_breakdown e1) = Dict.keys (cost_breakdown e2) /\
    (forall material quantity1,
       Dict.get materials1 material = Some quantity1 ->
       exists quantity2,
         Dict.get materials2 material = Some quantity2 /\
         quantity1 <= quantity2) /\
    (forall material entry1,
       Dict.get (cost_breakdown e1) material = Some entry1 ->
       exists entry2,
         Dict.get (cost_breakdown e2) material = Some entry2 /\
         ce_quantity entry1 <= ce_quantity entry2).
Proof.
  intros Hl1 Hw1 Hl2 Hw2 Hr1 Hr2 Ha Hw.
  rewrite !adjusted_materials_run, !estimate_costs_run.
  do 4 eexists. do 4 (split; [reflexivity|]).
  cbn [cost_breakdown estimate_view].
  assert (Ha1 : 0 < length1 * width1) by now apply Qmult_lt_0_compat.
  assert (Hf1 : 0 <= inject_Z wastage1)
    by (change 0 with (inject_Z 0); rewrite <- Zle_Qle; lia).
  assert (Hf : inject_Z wastage1 <= inject_Z wastage2)
    by (rewrite <- Zle_Qle; lia).
  set (a1 := length1 * width1) in *. set (a2 := length2 * width2) in *.
  assert (Hq : forall c, 0 < c ->
            c * (a1 / 100) * (1 + inject_Z wastage1 / 100)
            <= c * (a2 / 100) * (1 + inject_Z wastage2 / 100)).
  { intros c Hc. rewrite !div100.
    assert (Hp : c * (a1 * (1 # 100)) <= c * (a2 * (1 # 100))) by nra.
    assert (Hp0 : 0 < c * (a1 * (1 # 100))) by nra.
    nra. }
  split; [|split; [|split]].
  - rewrite !adjusted_view_quantities by apply profiles_wf.
    unfold with_wastage, quantities. now rewrite !keys_map_filter_total.
  - now rewrite !module_breakdown_keys.
  - intros material quantity1 Hget.
    rewrite adjusted_quantity in Hget. rewrite adjusted_quantity.
    destruct (Dict.get _ material) as [c|] eqn:Hc; [|discriminate].
    injection Hget as <-. cbn [option_map].
    eexists. split; [reflexivity|].
    apply Hq. eapply module_coefficients_positive; eauto.
  - intros material entry1 Hget.
    rewrite module_breakdown_lookup in Hget. rewrite module_breakdown_lookup.
    destruct (Dict.get (Dict.get_default _ construction_type Dict.empty)
                material) as [c|] eqn:Hc; [|discriminate].
    unfold priced in *.
    destruct (Dict.get (MATERIAL_RATES module_globals) material)
      as [r|]; [|discriminate].
    injection Hget as <-. eexists. split; [reflexivity|].
    cbn [ce_quantity]. apply round2_le.
    apply Hq. eapply module_coefficients_positive; eauto.
Qed.

Lemma line_quantities_nondecreasing_witness :
  exists materials1 materials2 e1 e2,
    adjusted_materials 1 1 "Plaster (12mm)" 0 module_globals
      = (Return (materials1, 1 * 1), module_globals) /\
    adjusted_materials 1 (3 # 2) "Plaster (12mm)" 20 module_globals
      = (Return (materials2, 1 * (3 # 2)), module_globals) /\
    estimate_costs 1 1 "Plaster (12mm)" 0 true module_globals
      = (Return e1, module_globals) /\
    estimate_costs 1 (3 # 2) "Plaster (12mm)" 20 true module_globals
      = (Return e2, module_globals) /\
    Dict.keys materials1 = Dict.keys materials2 /\
    Dict.keys (cost_breakdown e1) = Dict.keys (cost_breakdown e2) /\
    (forall material quantity1,
       Dict.get materials1 material = Some quantity1 ->
       exists quantity2,
         Dict.get materials2 material = Some quantity2 /\
         quantity1 <= quantity2) /\
    (forall material entry1,
       Dict.get (cost_breakdown e1) material = Some entry1 ->
       exists entry2,
         Dict.get (cost_breakdown e2) material = Some entry2 /\
         ce_quantity entry1 <= ce_quantity entry2).
Proof.
  apply (line_quantities_nondecreasing "Plaster (12mm)" 1 1 1 (3 # 2) 0 20
           true true);
    try reflexivity; try lia; apply Qle_bool_imp_le; reflexivity.
Defined.

(** * The estimate over shared objects *)

Section SharedFacts.

Lemma nth_error_middle {A : Type} (os rest : list A) (x : A) :
  nth_error (os ++ x :: rest) (List.length os) = Some x.
Proof.
  rewrite nth_error_app2 by apply Nat.le_refl. now rewrite Nat.sub_diag.
Qed.

Lemma nth_error_old {A : Type} (os new : list A) (a : nat) (x : A) :
  nth_error os a = Some x -> nth_error (os ++ new) a = Some x.
Proof.
  intros H. rewrite nth_error_app1; [exact H|].
  apply nth_error_Some. congruence.
Qed.

Lemma put_middle (os rest : list Shared.object) (x y : Shared.object) :
  Shared.put (os ++ x :: rest) (List.length os) y = (os ++ y :: rest)%list.
Proof. induction os as [|o os IH]; simpl; [reflexivity | now rewrite IH]. Qed.

(** New objects do not disturb the tables. *)
Lemma holds_extend (s : Shared.Store) (g : Globals) (new : list Shared.object) :
  Shared.holds s g -> Shared.holds (Shared.extend s new) g.
Proof.
  intros [Hrates (refs & Htable & Hrefs)]. split; [|exists refs; split].
  - simpl. now apply nth_error_old.
  - simpl. now apply nth_error_old.
  - clear Htable.
    induction Hrefs as [|kr kd refs table [Hk Hd] _ IH].
    + constructor.
    + constructor; [|exact IH].
      split; [exact Hk|]. simpl. now apply nth_error_old.
Qed.

(** A lookup in the table of references finds the profile the table of
    [g] has under the same key. *)
Lemma profile_lookup (os : list Shared.object) (refs : Dict.t Shared.addr)
    (table : Dict.t (Dict.t Q)) (construction_type : string) :
  Forall2
    (fun (kr : string * Shared.addr) (kd : string * Dict.t Q) =>
       fst kr = fst kd /\ nth_error os (snd kr) = Some (Shared.Numbers (snd kd)))
    refs table ->
  match Dict.get refs construction_type with
  | Some a =>
      exists d, Dict.get table construction_type = Some d /\
                nth_error os a = Some (Shared.Numbers d)
  | None => Dict.get table construction_type = None
  end.
Proof.
  intros Hrefs.
  induction Hrefs as [|[k a] [k' d] refs table [Hk Hd] _ IH]; simpl in *.
  - reflexivity.
  - subst k'. destruct (String.eqb k construction_type).
    + exists d. auto.
    + exact IH.
Qed.

Lemma bind_run_shared {A B : Type} (m : Shared.Run A) (k : A -> Shared.Run B)
    (s s' : Shared.Store) (a : A) :
  m s = (Return a, s') -> Shared.bind m k s = k a s'.
Proof. intros H. unfold Shared.bind. now rewrite H. Qed.

(** The loop of [calculate_materials] updates the one object behind
    [materials] and nothing else. *)
Lemma materials_loop (os rest : list Shared.object) (n1 n2 : Shared.addr) (k : Q)
    (items : list (string * Q)) :
  forall acc,
    Shared.for_each items
      (fun _ kv =>
         Shared.bind (Shared.load_numbers (List.length os))
           (fun d =>
              Shared.update (List.length os)
                (Shared.Numbers (Dict.set d (fst kv) (snd kv * k)))))
      tt (Shared.mkStore (os ++ Shared.Numbers acc :: rest) n1 n2)
    = (Return tt,
       Shared.mkStore
         (os ++
          Shared.Numbers
            (fold_left (fun m kv => Dict.set m (fst kv) (snd kv * k)) items acc)
          :: rest) n1 n2).
Proof.
  induction items as [|kv items IH]; intros acc; simpl.
  - reflexivity.
  - unfold Shared.bind at 1. unfold Shared.bind at 1.
    unfold Shared.load_numbers, Shared.bind at 1, Shared.load. cbn [Shared.objects].
    rewrite nth_error_middle. unfold Shared.ret at 1.
    unfold Shared.update. cbn [Shared.objects Shared.name_MATERIAL_RATES
                        Shared.name_CONSTRUCTION_COEFFICIENTS].
    rewrite put_middle. apply IH.
Qed.

Lemma calculate_materials_shared (s : Shared.Store) (g : Globals) (length width : Q)
    (construction_type : string) :
  Shared.holds s g ->
  Shared.calculate_materials length width construction_type s
  = (Return (List.length (Shared.objects s), length * width),
     Shared.extend s [Shared.Numbers (materials_view g length width construction_type);
               Shared.Numbers Dict.empty]).
Proof.
  intros [Hrates (refs & Htable & Hrefs)].
  destruct s as [os n1 n2]. cbn [Shared.objects Shared.name_MATERIAL_RATES
                                 Shared.name_CONSTRUCTION_COEFFICIENTS] in *.
  unfold Shared.calculate_materials.
  unfold Shared.bind at 1. unfold Shared.alloc at 1, Shared.extend. cbn [Shared.objects
    Shared.name_MATERIAL_RATES Shared.name_CONSTRUCTION_COEFFICIENTS].
  unfold Shared.bind at 1. unfold Shared.global at 1.
  cbn [Shared.name_CONSTRUCTION_COEFFICIENTS].
  unfold Shared.bind at 1. unfold Shared.alloc at 1, Shared.extend. cbn [Shared.objects
    Shared.name_MATERIAL_RATES Shared.name_CONSTRUCTION_COEFFICIENTS].
  rewrite <- app_assoc. cbn [app].
  rewrite length_app. cbn [List.length].
  unfold Shared.bind at 1.
  unfold Shared.load_profiles, Shared.bind at 1, Shared.load. cbn [Shared.objects].
  rewrite (nth_error_old _ _ _ _ Htable). unfold Shared.ret at 1.
  pose proof (profile_lookup os refs (CONSTRUCTION_COEFFICIENTS g)
                construction_type Hrefs) as Hlook.
  assert (Hitems :
    Shared.load_numbers
      (Dict.get_default refs construction_type (List.length os + 1)%nat)
      (Shared.mkStore (os ++ [Shared.Numbers Dict.empty; Shared.Numbers Dict.empty]) n1 n2)
    = (Return (Dict.get_default (CONSTRUCTION_COEFFICIENTS g)
                 construction_type Dict.empty),
       Shared.mkStore (os ++ [Shared.Numbers Dict.empty; Shared.Numbers Dict.empty]) n1 n2)).
  { unfold Shared.load_numbers, Shared.bind, Shared.load, Dict.get_default. cbn [Shared.objects].
    destruct (Dict.get refs construction_type) as [a|].
    - destruct Hlook as (d & Hd & Ha). rewrite Hd.
      now rewrite (nth_error_old _ _ _ _ Ha).
    - rewrite Hlook.
      change (os ++ [Shared.Numbers Dict.empty; Shared.Numbers Dict.empty])%list
        with (os ++ Shared.Numbers Dict.empty :: [Shared.Numbers Dict.empty])%list.
      replace (List.length os + 1)%nat
        with (List.length (os ++ [Shared.Numbers Dict.empty])%list)
        by (rewrite length_app; reflexivity).
      change (os ++ Shared.Numbers Dict.empty :: [Shared.Numbers Dict.empty])%list
        with (os ++ [Shared.Numbers Dict.empty] ++ [Shared.Numbers Dict.empty])%list.
      rewrite app_assoc. now rewrite nth_error_middle. }
  rewrite (bind_run_shared _ _ _ _ _ Hitems).
  unfold Dict.items.
  rewrite (bind_run_shared _ _ _ _ _
             (materials_loop os [Shared.Numbers Dict.empty] n1 n2
                (length * width / 100) _ Dict.empty)).
  reflexivity.
Qed.

(** The loop of [calculate_cost] updates the one object behind
    [cost_breakdown] and reads the rate table. *)
Lemma cost_loop (os : list Shared.object) (n1 n2 : Shared.addr) (rates : Dict.t RateEntry)
    (items : list (string * Q)) :
  nth_error os n1 = Some (Shared.Rates rates) ->
  forall bd total,
    Shared.for_each items
      (fun total_cost kv =>
         Shared.bind (Shared.global Shared.name_MATERIAL_RATES)
           (fun rates_ref =>
              Shared.bind (Shared.load_rates rates_ref)
                (fun rates =>
                   match Dict.get rates (fst kv) with
                   | Some entry =>
                       Shared.bind (Shared.load_breakdown (List.length os))
                         (fun d =>
                            Shared.bind
                              (Shared.update (List.length os)
                                 (Shared.Breakdown
                                    (Dict.set d (fst kv)
                                       {| ce_quantity := round (snd kv) 2;
                                          ce_rate := rate entry;
                                          ce_unit := unit entry;
                                          ce_cost :=
                                            round (snd kv * rate entry) 2 |})))
                              (fun _ =>
                                 Shared.ret (total_cost + snd kv * rate entry)))
                   | None => Shared.ret total_cost
                   end)))
      total (Shared.mkStore (os ++ [Shared.Breakdown bd]) n1 n2)
    = (Return (snd (fold_left (cost_step rates) items (bd, total))),
       Shared.mkStore
         (os ++ [Shared.Breakdown (fst (fold_left (cost_step rates) items (bd, total)))])
         n1 n2).
Proof.
  intros Hrates.
  induction items as [|kv items IH]; intros bd total; simpl.
  - reflexivity.
  - unfold Shared.bind at 1. unfold Shared.bind at 1. unfold Shared.global at 1.
    cbn [Shared.name_MATERIAL_RATES].
    unfold Shared.bind at 1.
    unfold Shared.load_rates at 1, Shared.bind at 1, Shared.load at 1. cbn [Shared.objects].
    rewrite (nth_error_old _ _ _ _ Hrates). unfold Shared.ret at 1.
    unfold cost_step at 2 4. cbn [fst snd].
    destruct (Dict.get rates (fst kv)) as [entry|].
    + unfold Shared.bind at 1.
      unfold Shared.load_breakdown at 1, Shared.bind at 1, Shared.load at 1. cbn [Shared.objects].
      rewrite nth_error_middle. unfold Shared.ret at 1.
      unfold Shared.bind at 1. unfold Shared.update at 1.
      cbn [Shared.objects Shared.name_MATERIAL_RATES Shared.name_CONSTRUCTION_COEFFICIENTS].
      rewrite put_middle. unfold Shared.ret at 1.
      apply IH.
    + unfold Shared.ret at 1. apply IH.
Qed.

Lemma calculate_cost_shared (s : Shared.Store) (g : Globals) (materials : Shared.addr)
    (items : Dict.t Q) :
  Shared.holds s g ->
  nth_error (Shared.objects s) materials = Some (Shared.Numbers items) ->
  Shared.calculate_cost materials s
  = (Return (List.length (Shared.objects s),
             snd (fold_left (cost_step (MATERIAL_RATES g)) items
                    (Dict.empty, 0))),
     Shared.extend s
       [Shared.Breakdown
          (fst (fold_left (cost_step (MATERIAL_RATES g)) items
                  (Dict.empty, 0)))]).
Proof.
  intros [Hrates _] Hitems.
  destruct s as [os n1 n2]. cbn [Shared.objects Shared.name_MATERIAL_RATES
                                 Shared.name_CONSTRUCTION_COEFFICIENTS] in *.
  unfold Shared.calculate_cost.
  unfold Shared.bind at 1. unfold Shared.alloc at 1, Shared.extend. cbn [Shared.objects
    Shared.name_MATERIAL_RATES Shared.name_CONSTRUCTION_COEFFICIENTS].
  unfold Shared.bind at 1.
  unfold Shared.load_numbers at 1, Shared.bind at 1, Shared.load at 1. cbn [Shared.objects].
  rewrite (nth_error_old _ _ _ _ Hitems). unfold Shared.ret at 1.
  unfold Dict.items.
  rewrite (bind_run_shared _ _ _ _ _
             (cost_loop os n1 n2 (MATERIAL_RATES g) items Hrates
                Dict.empty 0)).
  reflexivity.
Qed.

Lemma extend_extend (s : Shared.Store) (new1 new2 : list Shared.object) :
  Shared.extend (Shared.extend s new1) new2 = Shared.extend s (new1 ++ new2).
Proof. unfold Shared.extend. simpl. now rewrite app_assoc. Qed.

Lemma estimate_costs_shared (s : Shared.Store) (g : Globals) (length width : Q)
    (construction_type : string) (wastage_factor : Z) (include_labor : bool) :
  Shared.holds s g ->
  Shared.estimate_costs length width construction_type wastage_factor
    include_labor s
  = (Return
       (let e := estimate_view g length width construction_type
                   wastage_factor include_labor in
        Shared.mkEstimateRef (area e) (List.length (Shared.objects s) + 3)%nat
          (material_cost e) (labor_cost e) (total_cost e)),
     Shared.extend s
       (block_objects g length width construction_type wastage_factor)).
Proof.
  intros Hs. unfold Shared.estimate_costs.
  rewrite (bind_run_shared _ _ _ _ _
             (calculate_materials_shared s g length width construction_type
                Hs)).
  cbn [fst snd].
  set (s1 := Shared.extend s
               [Shared.Numbers (materials_view g length width construction_type);
                Shared.Numbers Dict.empty]).
  assert (Hload :
    Shared.load_numbers (List.length (Shared.objects s)) s1
    = (Return (materials_view g length width construction_type), s1)).
  { unfold Shared.load_numbers, Shared.bind, Shared.load, s1, Shared.extend. cbn [Shared.objects].
    now rewrite nth_error_middle. }
  rewrite (bind_run_shared _ _ _ _ _ Hload).
  unfold Shared.bind at 1. unfold Shared.alloc at 1.
  fold (adjusted_view g length width construction_type wastage_factor).
  set (s2 := Shared.extend s1
               [Shared.Numbers (adjusted_view g length width construction_type
                           wastage_factor)]).
  assert (Hs2 : Shared.holds s2 g) by (unfold s2, s1; now do 2 apply holds_extend).
  assert (Hadj :
    nth_error (Shared.objects s2) (List.length (Shared.objects s1))
    = Some (Shared.Numbers (adjusted_view g length width construction_type
                       wastage_factor)))
    by (unfold s2, Shared.extend; cbn [Shared.objects]; apply nth_error_middle).
  rewrite (bind_run_shared _ _ _ _ _
             (calculate_cost_shared s2 g _ _ Hs2 Hadj)).
  fold (cost_view g length width construction_type wastage_factor).
  cbn [fst snd]. unfold Shared.ret, s2, s1.
  rewrite !extend_extend. cbn [app].
  unfold block_objects, estimate_view. cbn [area material_cost labor_cost
                                             total_cost].
  do 3 f_equal.
  unfold Shared.extend. cbn [Shared.objects]. rewrite !length_app. cbn [List.length].
  lia.
Qed.

Lemma estimate_shared (s : Shared.Store) (g : Globals) (length width : Q)
    (construction_type : string) (wastage_factor : Z) (include_labor : bool) :
  Shared.holds s g ->
  snd (Shared.estimate length width construction_type wastage_factor
         include_labor s)
  = Shared.extend s (block_objects g length width construction_type wastage_factor)
  /\
  Shared.observed (Shared.estimate length width construction_type wastage_factor
              include_labor s)
  = fst (estimate length width construction_type wastage_factor
           include_labor g).
Proof.
  intros Hs. unfold Shared.estimate.
  rewrite (bind_run_shared _ _ _ _ _
             (estimate_costs_shared s g length width construction_type
                wastage_factor include_labor Hs)).
  rewrite estimate_run. cbv zeta.
  cbn [Shared.total_cost Shared.area area total_cost estimate_view].
  unfold Shared.truediv.
  destruct (Qeq_bool (length * width) 0).
  - split; reflexivity.
  - unfold Shared.bind, Shared.ret, Shared.observed. cbn [fst snd].
    split; [reflexivity|].
    cbn [Shared.cost_breakdown Shared.area Shared.material_cost
         Shared.labor_cost Shared.total_cost].
    unfold Shared.extend, block_objects. cbn [Shared.objects].
    change (Shared.objects s ++
            [Shared.Numbers (materials_view g length width construction_type);
             Shared.Numbers Dict.empty;
             Shared.Numbers (adjusted_view g length width construction_type
                        wastage_factor);
             Shared.Breakdown
               (fst (cost_view g length width construction_type
                       wastage_factor))])%list
      with (Shared.objects s ++
            [Shared.Numbers (materials_view g length width construction_type);
             Shared.Numbers Dict.empty;
             Shared.Numbers (adjusted_view g length width construction_type
                        wastage_factor)] ++
            [Shared.Breakdown
               (fst (cost_view g length width construction_type
                       wastage_factor))])%list.
    rewrite app_assoc.
    replace (List.length (Shared.objects s) + 3)%nat
      with (List.length
              (Shared.objects s ++
               [Shared.Numbers (materials_view g length width construction_type);
                Shared.Numbers Dict.empty;
                Shared.Numbers (adjusted_view g length width construction_type
                           wastage_factor)])%list)
      by (rewrite length_app; reflexivity).
    rewrite nth_error_middle. reflexivity.
Qed.

End SharedFacts.

(** C9.  From a store that holds the tables, a call of the estimate only
    adds objects: every object that was there, the tables among them, is
    left as it was and the two names refer to what they referred to.  A
    second call with the same arguments, run on the store the first one
    left, shows the same outcome, value for value, and that outcome is a
    function of the arguments and of the contents of the two tables
    alone. *)
Theorem estimate_twice_same_outcome (s : Shared.Store) (g : Globals)
    (length width : Q) (construction_type : string) (wastage_factor : Z)
    (include_labor : bool) :
  Shared.holds s g ->
  let first :=
    Shared.estimate length width construction_type wastage_factor
      include_labor s in
  let second :=
    Shared.estimate length width construction_type wastage_factor
      include_labor (snd first) in
  Shared.observed second = Shared.observed first /\
  Shared.observed first
    = fst (estimate length width construction_type wastage_factor
             include_labor g) /\
  firstn (List.length (Shared.objects s)) (Shared.objects (snd first))
    = Shared.objects s /\
  firstn (List.length (Shared.objects (snd first)))
         (Shared.objects (snd second))
    = Shared.objects (snd first) /\
  Shared.name_MATERIAL_RATES (snd second) = Shared.name_MATERIAL_RATES s /\
  Shared.name_CONSTRUCTION_COEFFICIENTS (snd second)
    = Shared.name_CONSTRUCTION_COEFFICIENTS s /\
  Shared.holds (snd first) g /\
  Shared.holds (snd second) g.
Proof.
  intros Hs. cbv zeta.
  destruct (estimate_shared s g length width construction_type wastage_factor
              include_labor Hs) as [Hstore1 Hseen1].
  assert (Hs1 : Shared.holds
                  (snd (Shared.estimate length width construction_type
                          wastage_factor include_labor s)) g)
    by (rewrite Hstore1; now apply holds_extend).
  destruct (estimate_shared _ g length width construction_type wastage_factor
              include_labor Hs1) as [Hstore2 Hseen2].
  split; [now rewrite Hseen2, Hseen1|]. split; [exact Hseen1|].
  split; [|split; [|split; [|split; [|split]]]].
  - rewrite Hstore1. unfold Shared.extend. cbn [Shared.objects].
    rewrite firstn_app, Nat.sub_diag, firstn_all. cbn [firstn].
    apply app_nil_r.
  - rewrite Hstore2. unfold Shared.extend at 1. cbn [Shared.objects].
    rewrite firstn_app, Nat.sub_diag, firstn_all. cbn [firstn].
    apply app_nil_r.
  - rewrite Hstore2, Hstore1. reflexivity.
  - rewrite Hstore2, Hstore1. reflexivity.
  - exact Hs1.
  - rewrite Hstore2. now apply holds_extend.
Qed.

Lemma module_store_holds : Shared.holds Shared.module_store module_globals.
Proof.
  split; [reflexivity|].
  eexists. split; [reflexivity|].
  repeat (apply Forall2_cons; [split; reflexivity|]).
  apply Forall2_nil.
Defined.

Lemma estimate_twice_same_outcome_witness :
  let first :=
    Shared.estimate 17 70 "Plaster (12mm)" 5 true Shared.module_store in
  let second :=
    Shared.estimate 17 70 "Plaster (12mm)" 5 true (snd first) in
  Shared.observed second = Shared.observed first /\
  Shared.observed first
    = fst (estimate 17 70 "Plaster (12mm)" 5 true module_globals) /\
  firstn (List.length (Shared.objects Shared.module_store))
         (Shared.objects (snd first))
    = Shared.objects Shared.module_store /\
  firstn (List.length (Shared.objects (snd first)))
         (Shared.objects (snd second))
    = Shared.objects (snd first) /\
  Shared.name_MATERIAL_RATES (snd second)
    = Shared.name_MATERIAL_RATES Shared.module_store /\
  Shared.name_CONSTRUCTION_COEFFICIENTS (snd second)
    = Shared.name_CONSTRUCTION_COEFFICIENTS Shared.module_store /\
  Shared.holds (snd first) module_globals /\
  Shared.holds (snd second) module_globals.
Proof.
  exact (estimate_twice_same_outcome Shared.module_store module_globals
           17 70 "Plaster (12mm)" 5 true module_store_holds).
Defined.

(** * What binary64 and the rounding of the breakdown do *)

Section Binary64Runs.

Import Floats.

(** C6, as stated, fails.  The quantity a line of the breakdown holds is
    rounded to two decimals, and it ties: for 1 x 1 ft of "Plaster (12mm)"
    the sand line shows 0 at 0% and at 20% wastage, and at 1 x 1 ft and at
    1 x 1.5 ft.  On binary64 numbers the same runs show the same tie, and
    the adjusted quantities themselves tie as well: the areas
    100.00000000000001 and 100.00000000000003 are different, and both give
    the same quantities; and for the positive length and width 1e-200 the
    quantities are the same at 0% and at 20% wastage. *)
Lemma line_quantities_tie :
  (exists e1 e2 entry1 entry2,
     fst (estimate_costs 1 1 "Plaster (12mm)" 0 true module_globals)
       = Return e1 /\
     fst (estimate_costs 1 1 "Plaster (12mm)" 20 true module_globals)
       = Return e2 /\
     Dict.get (cost_breakdown e1) "sand" = Some entry1 /\
     Dict.get (cost_breakdown e2) "sand" = Some entry2 /\
     ce_quantity entry1 == 0 /\ ce_quantity entry2 == 0) /\
  (exists e1 e2 entry1 entry2,
     fst (estimate_costs 1 1 "Plaster (12mm)" 0 true module_globals)
       = Return e1 /\
     fst (estimate_costs 1 (3 # 2) "Plaster (12mm)" 0 true module_globals)
       = Return e2 /\
     area e1 < area e2 /\
     Dict.get (cost_breakdown e1) "sand" = Some entry1 /\
     Dict.get (cost_breakdown e2) "sand" = Some entry2 /\
     ce_quantity entry1 == 0 /\ ce_quantity entry2 == 0) /\
  (exists e1 e2 entry1 entry2,
     Binary64.estimate_costs 1%float 1%float "Plaster (12mm)" 0 true
       = Return e1 /\
     Binary64.estimate_costs 1%float 1%float "Plaster (12mm)" 20 true
       = Return e2 /\
     Dict.get (Binary64.cost_breakdown e1) "sand" = Some entry1 /\
     Dict.get (Binary64.cost_breakdown e2) "sand" = Some entry2 /\
     Binary64.ce_quantity entry1 = 0%float /\
     Binary64.ce_quantity entry2 = 0%float) /\
  (exists materials,
     PrimFloat.ltb Binary64.area_a Binary64.area_b = true /\
     Binary64.adjusted_materials Binary64.area_a 1%float "Plaster (12mm)" 5
       = Return (materials, Binary64.area_a) /\
     Binary64.adjusted_materials Binary64.area_b 1%float "Plaster (12mm)" 5
       = Return (materials, Binary64.area_b)) /\
  (exists materials,
     PrimFloat.ltb 0%float Binary64.tiny = true /\
     Binary64.adjusted_materials Binary64.tiny Binary64.tiny
       "Plaster (12mm)" 0 = Return (materials, 0%float) /\
     Binary64.adjusted_materials Binary64.tiny Binary64.tiny
       "Plaster (12mm)" 20 = Return (materials, 0%float)).
Proof.
  split; [|split; [|split; [|split]]].
  - do 4 eexists.
    repeat match goal with |- _ /\ _ => split end;
      try (vm_compute; reflexivity).
  - do 4 eexists.
    repeat match goal with |- _ /\ _ => split end;
      try (vm_compute; reflexivity).
  - do 4 eexists.
    repeat match goal with |- _ /\ _ => split end;
      try (vm_compute; reflexivity).
  - eexists.
    repeat match goal with |- _ /\ _ => split end;
      try (vm_compute; reflexivity).
  - eexists.
    repeat match goal with |- _ /\ _ => split end;
      try (vm_compute; reflexivity).
Qed.

(** C10, as stated, fails.  On binary64 numbers the length and the width
    1e-200 are positive and their product is 0: the area is not positive,
    and the estimate raises [ZeroDivisionError] at [total_cost/area]. *)
Lemma positive_dimensions_can_underflow :
  PrimFloat.ltb 0%float Binary64.tiny = true /\
  snd (Binary64.calculate_materials Binary64.tiny Binary64.tiny
         "Plaster (12mm)") = 0%float /\
  Binary64.estimate Binary64.tiny Binary64.tiny "Plaster (12mm)" 5 true
    = Raise ZeroDivisionError.
Proof. repeat split; vm_compute; reflexivity. Qed.

End Binary64Runs.
